(** * Minecraft World Analytics: the filter-and-aggregate pipeline of project.py

    A shallow embedding of [src/project.py]: the data generator
    ([generate_data]), the global filtering block, the Statistics-tab KPI
    block, the Chaos-tab chaos index and the top-players projection.

    Modelling conventions.
    - A pandas DataFrame is the list of its rows, in row order; a column is
      the [map] of a field over that list.  Row labels are not modelled: no
      modelled operation reads them.
    - Python [int] is [Z]; [len] and [nunique] results are [nat].
    - Python [str] is [string]; the enumerations of the data set (mode,
      biome, resource, ...) are plain strings, as in the source.
    - A finite binary64 value ([hours_played], [balance], a quotient) is the
      rational it denotes, in [Q]; rounding of float arithmetic is not
      modelled, and equality of such values is [Qeq].  Statements about
      sums and quotients of floats therefore say which value is computed
      and how values compare, and use no identity of exact arithmetic that
      rounding would break.
    - A statement that may raise returns an [outcome]. *)

From Stdlib Require Import List ZArith QArith Bool String Lia.
From Stdlib Require Import Permutation Sorted DecimalString.
From Stdlib Require DecimalZ DecimalPos.
Import ListNotations.

Local Open Scope string_scope.
Local Open Scope Z_scope.
Local Open Scope list_scope.

(** ** Python exceptions *)

Inductive exn : Type :=
| ValueError
| ZeroDivisionError.

Inductive outcome (A : Type) : Type :=
| Returned (a : A)
| Raised (e : exn).

Arguments Returned {A} a.
Arguments Raised {A} e.

Definition obind {A B : Type} (m : outcome A) (k : A -> outcome B) : outcome B :=
  match m with
  | Returned a => k a
  | Raised e => Raised e
  end.

(** ** The four tables *)

Module Activity.
Record row : Type := mk
  { day : Z; player : string; hours_played : Q; style : string; mode : string }.
End Activity.

Module Mining.
Record row : Type := mk
  { day : Z; player : string; resource : string; y_level : Z;
      biome : string; mode : string }.
End Mining.

Module Economy.
Record row : Type := mk
  { day : Z; player : string; balance : Q; mode : string; cheater : bool }.
End Economy.

Module Deaths.
Record row : Type := mk
  { day : Z; player : string; cause : string; mode : string }.
End Deaths.

Record tables : Type := mk_tables
  { activity : list Activity.row;
    mining : list Mining.row;
    economy : list Economy.row;
    deaths : list Deaths.row }.

(** ** Sidebar parameters (lines 70-93) *)

Record params : Type := mk_params
  { mode : string;
    day_range : Z * Z;
    selected_biomes : list string;
    selected_resources : list string;
    active_only : bool;
    honest_only : bool }.

(** ** pandas column primitives used by the filters *)

(** [Series.between(left, right)], inclusive on both ends. *)
Definition between (left right x : Z) : bool :=
  (left <=? x) && (x <=? right).

(** [Series.isin(values)]. *)
Definition isin (values : list string) (x : string) : bool :=
  existsb (String.eqb x) values.

(** [x > y] on float values. *)
Definition Qgtb (x y : Q) : bool := negb (Qle_bool x y).

(** ** Global filtering (lines 97-123) *)

Definition activity_f (p : params) (activity : list Activity.row) : list Activity.row :=
  let activity_f :=
    filter (fun r => between (fst (day_range p)) (snd (day_range p)) (Activity.day r)
                     && (Activity.mode r =? mode p)%string) activity in
  if active_only p
  then filter (fun r => Qgtb (Activity.hours_played r) 2) activity_f
  else activity_f.

Definition mining_f (p : params) (mining : list Mining.row) : list Mining.row :=
  filter (fun r => between (fst (day_range p)) (snd (day_range p)) (Mining.day r)
                   && (Mining.mode r =? mode p)%string
                   && isin (selected_biomes p) (Mining.biome r)
                   && isin (selected_resources p) (Mining.resource r)) mining.

Definition economy_f (p : params) (economy : list Economy.row) : list Economy.row :=
  let economy_f :=
    filter (fun r => between (fst (day_range p)) (snd (day_range p)) (Economy.day r)
                     && (Economy.mode r =? mode p)%string) economy in
  if honest_only p
  then filter (fun r => negb (Economy.cheater r)) economy_f
  else economy_f.

Definition deaths_f (p : params) (deaths : list Deaths.row) : list Deaths.row :=
  filter (fun r => between (fst (day_range p)) (snd (day_range p)) (Deaths.day r)
                   && (Deaths.mode r =? mode p)%string) deaths.

(** The whole block.  None of its statements raises on columns of these
    types: comparisons, [between], [isin], [&], [~] and boolean-mask indexing
    all return, whatever the parameter values. *)
Definition global_filtering (p : params) (raw : tables) : outcome tables :=
  Returned {| activity := activity_f p (activity raw);
              mining := mining_f p (mining raw);
              economy := economy_f p (economy raw);
              deaths := deaths_f p (deaths raw) |}.

(** The sidebar's default selections: [sorted(mining[col].unique())]. *)
Fixpoint unique (l : list string) (seen : list string) : list string :=
  match l with
  | [] => []
  | x :: l' => if isin seen x then unique l' seen else x :: unique l' (x :: seen)
  end.

Fixpoint insert_sorted (x : string) (l : list string) : list string :=
  match l with
  | [] => [x]
  | y :: l' => if String.leb x y then x :: l else y :: insert_sorted x l'
  end.

Definition sorted (l : list string) : list string :=
  fold_right insert_sorted [] l.

(** ** Series: a labelled column of numbers

    The result of [groupby(...)[col].sum()] and of [value_counts()] is a
    Series: an ordered list of (label, value) entries. *)

Definition Series : Type := list (string * Q).

(** Python's [len]. *)
Definition len {A : Type} (l : list A) : nat := List.length l.

(** [Series.nunique()]: the number of distinct values. *)
Definition nunique (col : list string) : nat :=
  List.length (unique col []).

(** [Series.sum()] of a float column; [0.0] on an empty one. *)
Definition sum (col : list Q) : Q :=
  fold_left Qplus col 0%Q.

(** [df.groupby(key)[val].sum()]: one entry per distinct key, the groups in
    ascending key order (pandas' [sort=True] default), each with the sum of
    its values. *)
Definition groupby_sum (rows : list (string * Q)) : Series :=
  map (fun k => (k, sum (map snd (filter (fun kv => (fst kv =? k)%string) rows))))
      (sorted (unique (map fst rows) [])).

(** [Series.sort_values(ascending=False)] with pandas' default
    [kind='quicksort'].  pandas documents that default as not stable (only
    'mergesort' and 'stable' are): what the call promises is the same entries,
    values in non-increasing order.  The interface states exactly that; the
    order among entries of equal value is left to the implementation. *)
Class SortValues : Type :=
  { sort_values_desc : Series -> Series;
    sort_values_perm : forall s, Permutation (sort_values_desc s) s;
    sort_values_sorted :
      forall s, StronglySorted (fun a b => (snd b <= snd a)%Q) (sort_values_desc s) }.

(** [Series.head(n)]. *)
Definition head (n : nat) (s : Series) : Series := firstn n s.

(** [Series.value_counts()]: the count of each distinct value, sorted by
    count in descending order (by [sort_values(ascending=False)]). *)
Definition count (v : string) (col : list string) : nat :=
  List.length (filter (String.eqb v) col).

Definition value_counts `{SortValues} (col : list string) : Series :=
  sort_values_desc
    (map (fun v => (v, inject_Z (Z.of_nat (count v col)))) (unique col [])).

(** [Series.idxmax()]: the label of the first entry holding the maximum;
    ValueError on an empty Series. *)
Definition idxmax (s : Series) : outcome string :=
  match s with
  | [] => Raised ValueError
  | e :: s' =>
      Returned (fst (fold_left (fun best x => if Qgtb (snd x) (snd best) then x else best)
                               s' e))
  end.

(** Python's [a / b].  On two ints a zero divisor raises ZeroDivisionError.
    (On a numpy float64 numerator a zero divisor yields inf or nan with a
    warning; the model raises there too, which only makes a no-raise
    statement stronger.) *)
Definition truediv (a b : Q) : outcome Q :=
  if Qeq_bool b 0 then Raised ZeroDivisionError else Returned (a / b)%Q.

Definition of_nat (n : nat) : Q := inject_Z (Z.of_nat n).

(** ** Statistics tab: the KPI block (lines 142-166) *)

Record kpis : Type := mk_kpis
  { unique_players : nat;
    total_playtime : Q;
    avg_playtime : Q;
    mining_events : nat;
    deaths_count : nat;
    chaos_index : Q;
    top_biome : string;
    top_resource : string }.

(** [df.empty]. *)
Definition empty {A : Type} (df : list A) : bool :=
  match df with [] => true | _ :: _ => false end.

(** The sentinel of lines 160 and 165: an em dash (U+2014, three bytes). *)
Definition sentinel : string := "—".

(** Lines 145-148 and 153-156: the two guarded quotients. *)
Definition statistics_avg_playtime (total_playtime : Q) (unique_players : nat) : outcome Q :=
  if (0 <? unique_players)%nat
  then truediv total_playtime (of_nat unique_players)
  else Returned 0%Q.

Definition statistics_chaos_index (deaths_count unique_players : nat) : outcome Q :=
  if (0 <? unique_players)%nat
  then truediv (of_nat deaths_count) (of_nat unique_players)
  else Returned 0%Q.

(** Lines 158-166: the most frequent value of a Mining column. *)
Definition statistics_top `{SortValues}
  (mining_f : list Mining.row) (col : Mining.row -> string) : outcome string :=
  if negb (empty mining_f)
  then idxmax (value_counts (map col mining_f))
  else Returned sentinel.

Definition statistics_kpis `{SortValues}
  (activity_f : list Activity.row) (mining_f : list Mining.row)
  (deaths_f : list Deaths.row) : outcome kpis :=
  let unique_players := nunique (map Activity.player activity_f) in
  let total_playtime := sum (map Activity.hours_played activity_f) in
  obind (statistics_avg_playtime total_playtime unique_players) (fun avg_playtime =>
  let mining_events := len mining_f in
  let deaths_count := len deaths_f in
  obind (statistics_chaos_index deaths_count unique_players) (fun chaos_index =>
  obind (statistics_top mining_f Mining.biome) (fun top_biome =>
  obind (statistics_top mining_f Mining.resource) (fun top_resource =>
  Returned {| unique_players := unique_players;
              total_playtime := total_playtime;
              avg_playtime := avg_playtime;
              mining_events := mining_events;
              deaths_count := deaths_count;
              chaos_index := chaos_index;
              top_biome := top_biome;
              top_resource := top_resource |})))).

(** ** Chaos tab: the chaos index (line 326) *)

Definition chaos_ratio (deaths_count unique_players : nat) : outcome Q :=
  truediv (of_nat deaths_count) (of_nat (Nat.max unique_players 1)).

Definition tab5_chaos_index
  (deaths_f : list Deaths.row) (activity_f : list Activity.row) : outcome Q :=
  chaos_ratio (len deaths_f) (nunique (map Activity.player activity_f)).

(** ** Player tab: top players (lines 227-233) *)

Definition top_players `{SortValues} (activity_f : list Activity.row) : Series :=
  head 15
    (sort_values_desc
       (groupby_sum (map (fun r => (Activity.player r, Activity.hours_played r))
                         activity_f))).

(** ** numpy's global random state

    [np.random.*] reads and advances one process-wide generator state.  The
    bit-level generator and the samplers are numpy's; the interface records
    what they are: deterministic functions of the state.  [seed n] is the
    state [np.random.seed(n)] installs; each [draw_*] produces one sample and
    the advanced state. *)
Class RandomState : Type :=
  { rng : Type;
    seed : Z -> rng;
    draw_int : Z -> Z -> rng -> Z * rng;
    draw_index : nat -> option (list Q) -> rng -> nat * rng;
    draw_gamma : Q -> Q -> rng -> Q * rng;
    draw_lognormal : Q -> Q -> rng -> Q * rng }.

(** Code that uses the global generator and may raise. *)
Definition Rand `{RandomState} (A : Type) : Type := rng -> outcome A * rng.

Definition ret `{RandomState} {A : Type} (a : A) : Rand A :=
  fun s => (Returned a, s).

Definition raise `{RandomState} {A : Type} (e : exn) : Rand A :=
  fun s => (Raised e, s).

Definition bind `{RandomState} {A B : Type} (m : Rand A) (k : A -> Rand B) : Rand B :=
  fun s =>
    match m s with
    | (Returned a, s') => k a s'
    | (Raised e, s') => (Raised e, s')
    end.

Declare Scope rand_scope.
Delimit Scope rand_scope with rand.
Notation "x <- m ;; k" := (bind m (fun x => k))
  (at level 100, m at next level, right associativity) : rand_scope.
Notation "m ;;; k" := (bind m (fun _ => k))
  (at level 100, right associativity) : rand_scope.

(** Filling an output array of [n] cells, one draw per cell. *)
Fixpoint draws `{RandomState} {A : Type} (n : nat) (draw : rng -> A * rng) (s : rng)
  : list A * rng :=
  match n with
  | O => ([], s)
  | S n' =>
      let (x, s1) := draw s in
      let (xs, s2) := draws n' draw s1 in
      (x :: xs, s2)
  end.

Definition fill `{RandomState} {A : Type} (size : Z) (draw : rng -> A * rng) : Rand (list A) :=
  fun s => let (xs, s') := draws (Z.to_nat size) draw s in (Returned xs, s').

(** [np.random.seed(n)]. *)
Definition np_random_seed `{RandomState} (n : Z) : Rand unit :=
  fun _ => (Returned tt, seed n).

(** [np.random.randint(low, high, size)]: an empty result for [size = 0];
    otherwise ValueError("low >= high") on an empty range and ValueError
    (negative dimensions) on a negative size. *)
Definition randint `{RandomState} (low high size : Z) : Rand (list Z) :=
  if size =? 0 then ret []
  else if high <=? low then raise ValueError
  else if size <? 0 then raise ValueError
  else fill size (draw_int low high).

(** [np.random.choice(a, size, p=p)]: ValueError when [a] is empty unless no
    sample is taken, and on a negative size. *)
Definition choice `{RandomState} {A : Type} (a : list A) (size : Z) (p : option (list Q))
  : Rand (list A) :=
  match a with
  | [] => if size =? 0 then ret [] else raise ValueError
  | a0 :: _ =>
      if size <? 0 then raise ValueError
      else fill size (fun s => let (i, s') := draw_index (List.length a) p s in
                               (nth i a a0, s'))
  end.

(** [np.random.gamma(shape, scale, size)] and
    [np.random.lognormal(mean, sigma, size)], with positive constants. *)
Definition gamma `{RandomState} (shape scale : Q) (size : Z) : Rand (list Q) :=
  if size <? 0 then raise ValueError else fill size (draw_gamma shape scale).

Definition lognormal `{RandomState} (mean sigma : Q) (size : Z) : Rand (list Q) :=
  if size <? 0 then raise ValueError else fill size (draw_lognormal mean sigma).

(** [pd.DataFrame({...})]: ValueError unless all columns have one length. *)
Definition same_length (lens : list nat) : bool :=
  match lens with
  | [] => true
  | n :: ns => forallb (Nat.eqb n) ns
  end.

Definition DataFrame `{RandomState} {A : Type} (lens : list nat) (rows : list A) : Rand (list A) :=
  if same_length lens then ret rows else raise ValueError.

(** [range(lo, hi)] and [str(i)]. *)
Definition range (lo hi : Z) : list Z :=
  map (fun k => lo + Z.of_nat k) (seq 0 (Z.to_nat (hi - lo))).

Definition str (i : Z) : string := NilZero.string_of_int (Z.to_int i).

(** ** generate_data (lines 19-62) *)

Definition styles : list string := ["Builder"; "Miner"; "Fighter"; "Explorer"].
Definition biomes : list string :=
  ["Forest"; "Plains"; "Desert"; "Mountains"; "Swamp"; "Nether"; "End"].
Definition resources : list string := ["Diamond"; "Iron"; "Gold"; "Redstone"; "Coal"].
Definition death_causes : list string :=
  ["Lava"; "Creeper"; "Fall"; "PvP"; "Skeleton"; "Void"].
Definition modes : list string := ["Survival"; "Creative"; "Hardcore"].

Local Open Scope rand_scope.

Definition generate_data `{RandomState} (n_players max_days : Z) : Rand tables :=
  np_random_seed 42 ;;;
  let players := map (fun i => ("Player_" ++ str i)%string) (range 1 (n_players + 1)) in
  (* activity *)
  a_day <- randint 1 (max_days + 1) (n_players * max_days) ;;
  a_player <- choice players (n_players * max_days) None ;;
  a_hours <- gamma (22 # 10) (18 # 10) (n_players * max_days) ;;
  a_style <- choice styles (n_players * max_days) None ;;
  a_mode <- choice modes (n_players * max_days) (Some [55 # 100; 25 # 100; 20 # 100]%Q) ;;
  activity <- DataFrame [len a_day; len a_player; len a_hours; len a_style; len a_mode]
    (map (fun '(d, p, h, st, m) => Activity.mk d p h st m)
         (combine (combine (combine (combine a_day a_player) a_hours) a_style) a_mode)) ;;
  (* mining *)
  m_day <- randint 1 (max_days + 1) 12000 ;;
  m_player <- choice players 12000 None ;;
  m_resource <- choice resources 12000
                  (Some [8 # 100; 32 # 100; 18 # 100; 22 # 100; 20 # 100]%Q) ;;
  m_y_level <- randint (-64) 128 12000 ;;
  m_biome <- choice biomes 12000 None ;;
  m_mode <- choice modes 12000 (Some [55 # 100; 25 # 100; 20 # 100]%Q) ;;
  mining <- DataFrame [len m_day; len m_player; len m_resource; len m_y_level;
                       len m_biome; len m_mode]
    (map (fun '(d, p, r, y, b, m) => Mining.mk d p r y b m)
         (combine (combine (combine (combine (combine m_day m_player) m_resource)
                                    m_y_level) m_biome) m_mode)) ;;
  (* economy *)
  e_day <- randint 1 (max_days + 1) (n_players * 8) ;;
  e_player <- choice players (n_players * 8) None ;;
  e_balance <- lognormal (32 # 10) (9 # 10) (n_players * 8) ;;
  e_mode <- choice modes (n_players * 8) None ;;
  e_cheater <- choice [true; false] (n_players * 8) (Some [12 # 100; 88 # 100]%Q) ;;
  economy <- DataFrame [len e_day; len e_player; len e_balance; len e_mode; len e_cheater]
    (map (fun '(d, p, b, m, c) => Economy.mk d p b m c)
         (combine (combine (combine (combine e_day e_player) e_balance) e_mode) e_cheater)) ;;
  (* deaths *)
  d_day <- randint 1 (max_days + 1) 4000 ;;
  d_player <- choice players 4000 None ;;
  d_cause <- choice death_causes 4000 None ;;
  d_mode <- choice modes 4000 None ;;
  deaths <- DataFrame [len d_day; len d_player; len d_cause; len d_mode]
    (map (fun '(d, p, c, m) => Deaths.mk d p c m)
         (combine (combine (combine d_day d_player) d_cause) d_mode)) ;;
  ret {| activity := activity; mining := mining; economy := economy; deaths := deaths |}.

Local Close Scope rand_scope.

(** * Specification-side predicates *)

(** The Activity filter in the specification's words. *)
Definition activity_keeps (p : params) (r : Activity.row) : Prop :=
  fst (day_range p) <= Activity.day r <= snd (day_range p) /\
  Activity.mode r = mode p /\
  (active_only p = true -> (2 < Activity.hours_played r)%Q).

(** The Mining filter in the specification's words. *)
Definition mining_keeps (p : params) (r : Mining.row) : Prop :=
  fst (day_range p) <= Mining.day r <= snd (day_range p) /\
  Mining.mode r = mode p /\
  In (Mining.biome r) (selected_biomes p) /\
  In (Mining.resource r) (selected_resources p).

(** The data-model invariant on days: every record's day lies in
    [1, max_days]. *)
Definition days_within (max_days : Z) (raw : tables) : Prop :=
  Forall (fun r => 1 <= Activity.day r <= max_days) (activity raw) /\
  Forall (fun r => 1 <= Mining.day r <= max_days) (mining raw) /\
  Forall (fun r => 1 <= Economy.day r <= max_days) (economy raw) /\
  Forall (fun r => 1 <= Deaths.day r <= max_days) (deaths raw).

(** The mode-matching subset of the raw tables. *)
Definition mode_subset (m : string) (raw : tables) : tables :=
  {| activity := filter (fun r => (Activity.mode r =? m)%string) (activity raw);
     mining := filter (fun r => (Mining.mode r =? m)%string) (mining raw);
     economy := filter (fun r => (Economy.mode r =? m)%string) (economy raw);
     deaths := filter (fun r => (Deaths.mode r =? m)%string) (deaths raw) |}.

(** No record of the raw tables carries mode [m]. *)
Definition mode_absent (m : string) (raw : tables) : Prop :=
  Forall (fun r => Activity.mode r <> m) (activity raw) /\
  Forall (fun r => Mining.mode r <> m) (mining raw) /\
  Forall (fun r => Economy.mode r <> m) (economy raw) /\
  Forall (fun r => Deaths.mode r <> m) (deaths raw).

Definition no_tables : tables :=
  {| activity := []; mining := []; economy := []; deaths := [] |}.

(** The sidebar's defaults (lines 75-93): the whole slider range, every
    biome and resource of the raw Mining table, both boxes unchecked. *)
Definition default_params (m : string) (max_days : Z) (raw : tables) : params :=
  {| mode := m;
     day_range := (1, max_days);
     selected_biomes := sorted (unique (map Mining.biome (mining raw)) []);
     selected_resources := sorted (unique (map Mining.resource (mining raw)) []);
     active_only := false;
     honest_only := false |}.

(** A small raw data set used to exercise the statements. *)
Definition sample_raw : tables :=
  {| activity :=
       [ Activity.mk 1 "Player_1" 5 "Miner" "Survival";
         Activity.mk 1 "Player_2" 3 "Builder" "Survival";
         Activity.mk 2 "Player_1" 10 "Miner" "Creative";
         Activity.mk 2 "Player_3" (3 # 2) "Fighter" "Survival" ];
     mining :=
       [ Mining.mk 1 "Player_1" "Iron" 12 "Forest" "Survival";
         Mining.mk 2 "Player_2" "Diamond" (-50) "Nether" "Survival";
         Mining.mk 2 "Player_3" "Coal" 60 "Plains" "Hardcore" ];
     economy :=
       [ Economy.mk 1 "Player_1" 40 "Survival" false;
         Economy.mk 2 "Player_2" 900 "Survival" true ];
     deaths :=
       [ Deaths.mk 1 "Player_2" "Lava" "Survival";
         Deaths.mk 2 "Player_3" "Void" "Hardcore" ] |}.

Definition sample_params : params :=
  {| mode := "Survival"; day_range := (1, 2);
     selected_biomes := ["Forest"; "Nether"]; selected_resources := ["Diamond"; "Iron"];
     active_only := true; honest_only := true |}.

(** * Definitions used by the statements *)

(** ** Single-pass forms of the filters *)

Definition activity_keep (p : params) (r : Activity.row) : bool :=
  between (fst (day_range p)) (snd (day_range p)) (Activity.day r)
  && (Activity.mode r =? mode p)%string
  && (if active_only p then Qgtb (Activity.hours_played r) 2 else true).

Definition mining_keep (p : params) (r : Mining.row) : bool :=
  between (fst (day_range p)) (snd (day_range p)) (Mining.day r)
  && (Mining.mode r =? mode p)%string
  && isin (selected_biomes p) (Mining.biome r)
  && isin (selected_resources p) (Mining.resource r).

Definition economy_keep (p : params) (r : Economy.row) : bool :=
  between (fst (day_range p)) (snd (day_range p)) (Economy.day r)
  && (Economy.mode r =? mode p)%string
  && (if honest_only p then negb (Economy.cheater r) else true).

(** ** More example inputs *)

Definition reversed_params : params :=
  {| mode := "Survival"; day_range := (5, 3);
     selected_biomes := ["Forest"; "Nether"]; selected_resources := ["Diamond"; "Iron"];
     active_only := false; honest_only := false |}.

Definition unknown_mode_params : params :=
  {| mode := "Spectator"; day_range := (1, 2);
     selected_biomes := ["Forest"; "Nether"]; selected_resources := ["Diamond"; "Iron"];
     active_only := false; honest_only := false |}.

Definition hardcore_params : params :=
  {| mode := "Hardcore"; day_range := (1, 2);
     selected_biomes := ["Plains"]; selected_resources := ["Coal"];
     active_only := false; honest_only := false |}.

(** ** A stable implementation of [sort_values(ascending=False)]

    An insertion sort into a descending list.  [insert_by before] puts [x]
    in front of the first entry [y] with [before x y]. *)

Fixpoint insert_by (before : string * Q -> string * Q -> bool)
  (x : string * Q) (s : Series) : Series :=
  match s with
  | [] => [x]
  | y :: s' => if before x y then x :: s else y :: insert_by before x s'
  end.

Definition sort_by (before : string * Q -> string * Q -> bool) (s : Series) : Series :=
  fold_right (insert_by before) [] s.

(** Stable: an entry stays in front of the later entries of equal value. *)
Definition before_stable (x y : string * Q) : bool := Qle_bool (snd y) (snd x).

Definition desc (a b : string * Q) : Prop := (snd b <= snd a)%Q.

(** ** Top players: the statement's vocabulary *)

(** The (player, hours_played) pairs the groupby reads. *)
Definition playtime_rows (activity_f : list Activity.row) : list (string * Q) :=
  map (fun r => (Activity.player r, Activity.hours_played r)) activity_f.

(** A player's summed playtime, in the specification's words. *)
Definition total (activity_f : list Activity.row) (p : string) : Q :=
  sum (map Activity.hours_played
           (filter (fun r => (Activity.player r =? p)%string) activity_f)).

(** Entry [a] stands before entry [b] in a Series. *)
Definition precedes (a b : string * Q) (s : Series) : Prop :=
  exists i j : nat, (i < j)%nat /\ nth_error s i = Some a /\ nth_error s j = Some b.

(** Entries of equal value stand in [out] in the order they have in [inp]. *)
Definition keeps_tie_order (out inp : Series) : Prop :=
  forall a b : string * Q,
    precedes a b out -> (snd a == snd b)%Q -> precedes a b inp.

(** A sort is stable when it keeps the order of entries of equal value. *)
Definition stable (sort : Series -> Series) : Prop :=
  forall s : Series, keeps_tie_order (sort s) s.

(** ** The sort the default [kind='quicksort'] runs

    [Series.sort_values(ascending=False)] sorts through pandas' [nargsort]:
    the values are reversed, numpy's [argsort(kind='quicksort')] orders
    them ascending, and the resulting positions are reversed again.

    [argsort] below follows numpy's scalar routine ([aquicksort_] in
    numpy/_core/src/npysort/quicksort.cpp), which is not part of this
    repository: a quicksort on
    the array of positions with a median-of-three pivot and an explicit
    stack of pending stretches, finishing every stretch of at most 17
    positions by insertion sort.  [t] is the array of positions ([tosort]),
    [v] the values, [pl], [pr], [pm], [pi], [pj] the C pointers as offsets
    into [t].  The routine's fallback to heapsort, taken when the depth
    budget [cdepth] is used up, is not transcribed: the model returns
    [None] there, and when the fuel of a loop runs out.  numpy builds that
    dispatch to vectorised sorts on some processors run other code. *)

Module npysort.

(** [a < b] on two float values. *)
Definition less (a b : Q) : bool := Qgtb b a.

(** [v[*p]]. *)
Definition at_ (v : list Q) (t : list nat) (p : nat) : Q := nth (nth p t 0%nat) v 0%Q.

(** [*p = x]. *)
Fixpoint put {A : Type} (p : nat) (x : A) (t : list A) : list A :=
  match t, p with
  | [], _ => []
  | _ :: t', O => x :: t'
  | y :: t', S p' => y :: put p' x t'
  end.

Definition INTP_SWAP (t : list nat) (p q : nat) : list nat :=
  put q (nth p t 0%nat) (put p (nth q t 0%nat) t).

(** The three conditional swaps that order [*pl], [*pm], [*pr]. *)
Definition median3 (v : list Q) (t : list nat) (pl pm pr : nat) : list nat :=
  let t := if less (at_ v t pm) (at_ v t pl) then INTP_SWAP t pm pl else t in
  let t := if less (at_ v t pr) (at_ v t pm) then INTP_SWAP t pr pm else t in
  if less (at_ v t pm) (at_ v t pl) then INTP_SWAP t pm pl else t.

(** [do { ++pi; } while (less(v[*pi], vp));] *)
Fixpoint scan_up (fuel : nat) (v : list Q) (t : list nat) (vp : Q) (pi : nat) : nat :=
  match fuel with
  | O => pi
  | S f => let pi := S pi in if less (at_ v t pi) vp then scan_up f v t vp pi else pi
  end.

(** [do { --pj; } while (less(vp, v[*pj]));] *)
Fixpoint scan_down (fuel : nat) (v : list Q) (t : list nat) (vp : Q) (pj : nat) : nat :=
  match fuel with
  | O => pj
  | S f => let pj := Nat.pred pj in if less vp (at_ v t pj) then scan_down f v t vp pj else pj
  end.

(** The partition loop: scan, stop when the pointers meet, else swap. *)
Fixpoint partition (fuel : nat) (v : list Q) (t : list nat) (vp : Q) (pi pj : nat)
  : list nat * nat :=
  match fuel with
  | O => (t, pi)
  | S f =>
      let pi := scan_up (List.length t) v t vp pi in
      let pj := scan_down (List.length t) v t vp pj in
      if (pj <=? pi)%nat then (t, pi) else partition f v (INTP_SWAP t pi pj) vp pi pj
  end.

(** [while (pj > pl && less(vp, v[*pk])) { *pj-- = *pk--; }] with [pk = pj - 1]. *)
Fixpoint shift (fuel : nat) (v : list Q) (t : list nat) (vp : Q) (pj pl : nat)
  : list nat * nat :=
  match fuel with
  | O => (t, pj)
  | S f =>
      if (pl <? pj)%nat && less vp (at_ v t (pj - 1))
      then shift f v (put pj (nth (pj - 1) t 0%nat) t) vp (pj - 1)%nat pl
      else (t, pj)
  end.

(** The insertion sort of the stretch [pl .. pr], from [pi] on. *)
Fixpoint insertion (fuel : nat) (v : list Q) (t : list nat) (pi pl pr : nat) : list nat :=
  match fuel with
  | O => t
  | S f =>
      if (pi <=? pr)%nat
      then let vi := nth pi t 0%nat in
           let vp := nth vi v 0%Q in
           let (t', pj) := shift (List.length t) v t vp pi pl in
           insertion f v (put pj vi t') (S pi) pl pr
      else t
  end.

(** The outer loop.  [top] tells the head of the [while (1)] loop, where
    the depth budget is tested, from the head of the inner
    [while ((pr - pl) > SMALL_QUICKSORT)] loop; [stack] holds the pending
    stretches with the depth budget saved for each. *)
Fixpoint aquicksort_loop (fuel : nat) (v : list Q) (t : list nat) (pl pr : nat)
  (cdepth : Z) (stack : list (nat * nat * Z)) (top : bool) : option (list nat) :=
  match fuel with
  | O => None
  | S f =>
      if top && (cdepth <? 0) then None
      else if (16 <? pr - pl)%nat then
        let pm := (pl + Nat.div2 (pr - pl))%nat in
        let t := median3 v t pl pm pr in
        let vp := at_ v t pm in
        let t := INTP_SWAP t pm (pr - 1) in
        let (t, pi) := partition (List.length t) v t vp pl (pr - 1)%nat in
        let t := INTP_SWAP t pi (pr - 1) in
        let cdepth := cdepth - 1 in
        if (pi - pl <? pr - pi)%nat
        then aquicksort_loop f v t pl (pi - 1)%nat cdepth
               ((pi + 1, pr, cdepth)%nat :: stack) false
        else aquicksort_loop f v t (pi + 1)%nat pr cdepth
               ((pl, pi - 1, cdepth)%nat :: stack) false
      else
        let t := insertion (List.length t) v t (pl + 1)%nat pl pr in
        match stack with
        | [] => Some t
        | (pl', pr', d) :: stack' => aquicksort_loop f v t pl' pr' d stack' true
        end
  end.

(** [v.argsort(kind='quicksort')]: the positions of [v] in ascending order
    of value; the depth budget is twice the index of the top bit of the
    length. *)
Definition argsort (v : list Q) : option (list nat) :=
  let num := List.length v in
  aquicksort_loop (2 * num + 2) v (seq 0 num) 0 (num - 1)
                  (2 * Z.log2 (Z.of_nat num)) [] true.

End npysort.

(** pandas' [nargsort(items, kind, ascending=False)] on values without NaN. *)
Definition nargsort_descending (items : list Q) : option (list nat) :=
  let idx := seq 0 (List.length items) in
  let non_nans := rev items in
  let non_nan_idx := rev idx in
  option_map (fun order => rev (map (fun k => nth k non_nan_idx 0%nat) order))
             (npysort.argsort non_nans).

(** [Series.sort_values(ascending=False)]: the entries taken at the sorted
    positions. *)
Definition sort_values_quicksort (s : Series) : option Series :=
  option_map (map (fun i => nth i s (EmptyString, 0%Q)))
             (nargsort_descending (map snd s)).

(** Lines 227-233 run with that sort. *)
Definition top_players_quicksort (activity_f : list Activity.row) : option Series :=
  option_map (head 15)
             (sort_values_quicksort (groupby_sum (playtime_rows activity_f))).

(** Eighteen players with one hour each. *)
Definition eighteen_tied : list Activity.row :=
  map (fun i => Activity.mk 1 ("Player_" ++ str i)%string 1 "Miner" "Survival")
      (range 1 19).

(** ** A concrete generator *)

(** A small concrete generator, to run the model: a linear congruential
    state, every sampler reading the state and stepping it once. *)
Definition lcg_next (s : Z) : Z := (1103515245 * s + 12345) mod 2147483648.

Definition lcg : RandomState :=
  {| rng := Z;
     seed := fun n => n mod 2147483648;
     draw_int := fun low high s => (low + s mod (high - low), lcg_next s);
     draw_index := fun n _ s => (Z.to_nat (s mod Z.of_nat n), lcg_next s);
     draw_gamma := fun shape scale s => ((shape * scale * inject_Z (1 + s mod 3))%Q, lcg_next s);
     draw_lognormal := fun mean sigma s => (inject_Z (1 + s mod 100), lcg_next s) |}.

(** * The remaining chart tables *)

(** ** groupby over any key type

    [df.groupby(keys)] with pandas' defaults: one group per distinct key,
    the groups in ascending key order; [agg] is what is computed from the
    rows of a group ([.sum()] of a column, [.size()]). *)

Section GroupBy.

Variables (K : Type) (eqb leb : K -> K -> bool).

Fixpoint unique_keys (l seen : list K) : list K :=
  match l with
  | [] => []
  | x :: l' =>
      if existsb (eqb x) seen then unique_keys l' seen
      else x :: unique_keys l' (x :: seen)
  end.

Fixpoint insert_key (x : K) (l : list K) : list K :=
  match l with
  | [] => [x]
  | y :: l' => if leb x y then x :: l else y :: insert_key x l'
  end.

Definition sort_keys (l : list K) : list K := fold_right insert_key [] l.

Definition groupby {V A : Type} (agg : list V -> A) (rows : list (K * V)) : list (K * A) :=
  map (fun k => (k, agg (map snd (filter (fun kv => eqb (fst kv) k) rows))))
      (sort_keys (unique_keys (map fst rows) [])).

End GroupBy.

Arguments unique_keys {K} eqb l seen.
Arguments insert_key {K} leb x l.
Arguments sort_keys {K} leb l.
Arguments groupby {K} eqb leb {V A} agg rows.

(** Keys made of two columns, compared column by column. *)
Definition pair_eqb (a b : string * string) : bool :=
  (fst a =? fst b)%string && (snd a =? snd b)%string.

Definition pair_leb (a b : string * string) : bool :=
  match String.compare (fst a) (fst b) with
  | Lt => true
  | Eq => String.leb (snd a) (snd b)
  | Gt => false
  end.

(** ** Player tab, line 216: playtime per day *)
Definition daily (activity_f : list Activity.row) : list (Z * Q) :=
  groupby Z.eqb Z.leb sum
    (map (fun r => (Activity.day r, Activity.hours_played r)) activity_f).

(** ** Mining tab, line 257: events per (biome, resource) *)
Definition biome_res (mining_f : list Mining.row) : list ((string * string) * nat) :=
  groupby pair_eqb pair_leb (@len Mining.row)
    (map (fun r => ((Mining.biome r, Mining.resource r), r)) mining_f).

(** ** Biomes tab, line 272, and Chaos tab, line 313: value counts *)
Definition biome_size `{SortValues} (mining_f : list Mining.row) : Series :=
  value_counts (map Mining.biome mining_f).

Definition causes `{SortValues} (deaths_f : list Deaths.row) : Series :=
  value_counts (map Deaths.cause deaths_f).

(** ** Economy tab, lines 287 and 298: wealth and the richest players *)
Definition wealth (economy_f : list Economy.row) : Series :=
  groupby_sum (map (fun r => (Economy.player r, Economy.balance r)) economy_f).

Definition richest `{SortValues} (economy_f : list Economy.row) : Series :=
  head 15 (sort_values_desc (wealth economy_f)).

(** ** Vocabulary of the further statements *)

(** The Economy filter in words. *)
Definition economy_keeps (p : params) (r : Economy.row) : Prop :=
  fst (day_range p) <= Economy.day r <= snd (day_range p) /\
  Economy.mode r = mode p /\
  (honest_only p = true -> Economy.cheater r = false).

(** [q] selects no more than [p]: the same mode, a day range inside [p]'s,
    biome and resource selections inside [p]'s, and every box checked in
    [p] checked in [q]. *)
Definition narrows (q p : params) : Prop :=
  mode q = mode p /\
  fst (day_range p) <= fst (day_range q) /\
  snd (day_range q) <= snd (day_range p) /\
  incl (selected_biomes q) (selected_biomes p) /\
  incl (selected_resources q) (selected_resources p) /\
  (active_only p = true -> active_only q = true) /\
  (honest_only p = true -> honest_only q = true).

(** What the samplers of numpy promise about a bounded integer draw: a
    value of the half-open range [low, high). *)
Definition draw_int_in_range (numpy : RandomState) : Prop :=
  forall (low high : Z) (s : rng), low < high ->
    low <= fst (draw_int low high s) < high.

(** The player identifiers of line 23. *)
Definition players_of (n_players : Z) : list string :=
  map (fun i => ("Player_" ++ str i)%string) (range 1 (n_players + 1)).

(** The entries [value_counts] sorts. *)
Definition count_entries (col : list string) : Series :=
  map (fun v => (v, inject_Z (Z.of_nat (count v col)))) (unique col []).

(** What every row of the generated tables satisfies. *)
Definition activity_row_ok (numpy : RandomState) (n_players max_days : Z)
  (r : Activity.row) : Prop :=
  In (Activity.player r) (players_of n_players) /\
  In (Activity.style r) styles /\ In (Activity.mode r) modes /\
  (draw_int_in_range numpy -> 1 <= Activity.day r <= max_days).

Definition mining_row_ok (numpy : RandomState) (n_players max_days : Z)
  (r : Mining.row) : Prop :=
  In (Mining.player r) (players_of n_players) /\
  In (Mining.resource r) resources /\ In (Mining.biome r) biomes /\
  In (Mining.mode r) modes /\
  (draw_int_in_range numpy ->
   1 <= Mining.day r <= max_days /\ -64 <= Mining.y_level r <= 127).

Definition economy_row_ok (numpy : RandomState) (n_players max_days : Z)
  (r : Economy.row) : Prop :=
  In (Economy.player r) (players_of n_players) /\ In (Economy.mode r) modes /\
  (draw_int_in_range numpy -> 1 <= Economy.day r <= max_days).

Definition deaths_row_ok (numpy : RandomState) (n_players max_days : Z)
  (r : Deaths.row) : Prop :=
  In (Deaths.player r) (players_of n_players) /\
  In (Deaths.cause r) death_causes /\ In (Deaths.mode r) modes /\
  (draw_int_in_range numpy -> 1 <= Deaths.day r <= max_days).

Definition narrow_params : params :=
  {| mode := "Survival"; day_range := (1, 1);
     selected_biomes := ["Forest"]; selected_resources := ["Iron"];
     active_only := true; honest_only := true |}.

(** * Facts about the column primitives *)

Lemma between_spec (lo hi x : Z) : between lo hi x = true <-> lo <= x <= hi.
Proof. unfold between. rewrite andb_true_iff, !Z.leb_le. tauto. Qed.

Lemma isin_spec (values : list string) (x : string) :
  isin values x = true <-> In x values.
Proof.
  unfold isin. rewrite existsb_exists. split.
  - intros (y & Hy & E). apply String.eqb_eq in E. now subst.
  - intros Hx. exists x. split; [assumption | apply String.eqb_refl].
Qed.

Lemma Qgtb_spec (x y : Q) : Qgtb x y = true <-> (y < x)%Q.
Proof.
  unfold Qgtb. rewrite negb_true_iff. split.
  - intros E. apply Qnot_le_lt. intros L. apply Qle_bool_iff in L. congruence.
  - intros L. destruct (Qle_bool x y) eqn:E; [| reflexivity].
    apply Qle_bool_iff in E. exfalso. exact (Qlt_not_le _ _ L E).
Qed.

Lemma filter_length_le {A : Type} (f : A -> bool) (l : list A) :
  (List.length (filter f l) <= List.length l)%nat.
Proof.
  induction l as [| x l IH]; simpl; [lia |].
  destruct (f x); simpl; lia.
Qed.

Lemma filter_all {A : Type} (f : A -> bool) (l : list A) :
  (forall x, In x l -> f x = true) -> filter f l = l.
Proof.
  induction l as [| x l IH]; intros H; simpl; [reflexivity |].
  rewrite (H x (or_introl eq_refl)). f_equal. apply IH.
  intros y Hy. apply H. now right.
Qed.

Lemma filter_none {A : Type} (f : A -> bool) (l : list A) :
  (forall x, In x l -> f x = false) -> filter f l = [].
Proof.
  induction l as [| x l IH]; intros H; simpl; [reflexivity |].
  rewrite (H x (or_introl eq_refl)). apply IH.
  intros y Hy. apply H. now right.
Qed.

Lemma filter_idem {A : Type} (f : A -> bool) (l : list A) :
  filter f (filter f l) = filter f l.
Proof. apply filter_all. intros x Hx. now apply filter_In in Hx. Qed.

Lemma filter_and {A : Type} (f g : A -> bool) (l : list A) :
  filter g (filter f l) = filter (fun x => f x && g x) l.
Proof.
  induction l as [| x l IH]; simpl; [reflexivity |].
  destruct (f x); simpl; [destruct (g x) |]; now rewrite IH.
Qed.

Lemma filter_ext_in' {A : Type} (f g : A -> bool) (l : list A) :
  (forall x, In x l -> f x = g x) -> filter f l = filter g l.
Proof.
  induction l as [| x l IH]; intros H; simpl; [reflexivity |].
  rewrite (H x (or_introl eq_refl)), IH; [reflexivity |].
  intros y Hy. apply H. now right.
Qed.

(** The sidebar's default option lists contain every value of the column. *)
Lemma unique_In (l seen : list string) (x : string) :
  In x l -> In x seen \/ In x (unique l seen).
Proof.
  revert seen. induction l as [| y l IH]; intros seen Hx; [contradiction |].
  simpl. destruct Hx as [-> | Hx].
  - destruct (isin seen x) eqn:E.
    + left. now apply isin_spec.
    + right. now left.
  - destruct (isin seen y) eqn:E.
    + now apply IH.
    + destruct (IH (y :: seen) Hx) as [[-> | H] | H]; [right; now left | now left |].
      right. now right.
Qed.

Lemma insert_sorted_In (x y : string) (l : list string) :
  In y (insert_sorted x l) <-> y = x \/ In y l.
Proof.
  induction l as [| z l IH]; simpl.
  - intuition congruence.
  - destruct (String.leb x z); simpl; [intuition congruence |].
    rewrite IH. intuition congruence.
Qed.

Lemma sorted_In (l : list string) (y : string) : In y (sorted l) <-> In y l.
Proof.
  induction l as [| x l IH]; simpl; [tauto |].
  rewrite insert_sorted_In, IH. intuition congruence.
Qed.

Lemma default_options_full (col : list string) (x : string) :
  In x col -> In x (sorted (unique col [])).
Proof.
  intros Hx. apply sorted_In.
  destruct (unique_In col [] x Hx) as [[] | H]. exact H.
Qed.

(** * The filter engine *)

Lemma activity_keep_spec (p : params) (r : Activity.row) :
  activity_keep p r = true <-> activity_keeps p r.
Proof.
  unfold activity_keep, activity_keeps.
  rewrite !andb_true_iff, between_spec, String.eqb_eq.
  destruct (active_only p).
  - rewrite Qgtb_spec. intuition.
  - intuition discriminate.
Qed.

Lemma activity_f_filter (p : params) (raw : list Activity.row) :
  activity_f p raw = filter (activity_keep p) raw.
Proof.
  unfold activity_f, activity_keep. destruct (active_only p).
  - apply filter_and.
  - apply filter_ext_in'. intros x _. now rewrite andb_true_r.
Qed.

(** C2.  The Activity filter keeps exactly the records with
    day_lo <= day <= day_hi and mode equal to the selected mode and, when
    active_only is set, hours_played > 2: a row is in the filtered table iff
    it is a raw row meeting those conditions, and the filtered table is the
    raw table with the other rows deleted (order and repetitions kept). *)
Theorem activity_filter_exact :
  forall (p : params) (raw : list Activity.row),
    (forall r, In r (activity_f p raw) <-> In r raw /\ activity_keeps p r) /\
    (exists keep : Activity.row -> bool,
        (forall r, keep r = true <-> activity_keeps p r) /\
        activity_f p raw = filter keep raw).
Proof.
  intros p raw. split.
  - intros r. rewrite activity_f_filter, filter_In, activity_keep_spec. tauto.
  - exists (activity_keep p). split.
    + intros r. apply activity_keep_spec.
    + apply activity_f_filter.
Qed.

Lemma mining_keep_spec (p : params) (r : Mining.row) :
  mining_keep p r = true <-> mining_keeps p r.
Proof.
  unfold mining_keep, mining_keeps.
  rewrite !andb_true_iff, between_spec, String.eqb_eq, !isin_spec. tauto.
Qed.

(** C3.  The Mining filter keeps exactly the records whose day lies in the
    inclusive day range, whose mode is the selected mode, whose biome is in
    the selected biome set and whose resource is in the selected resource
    set (order and repetitions kept). *)
Theorem mining_filter_exact :
  forall (p : params) (raw : list Mining.row),
    (forall r, In r (mining_f p raw) <-> In r raw /\ mining_keeps p r) /\
    (exists keep : Mining.row -> bool,
        (forall r, keep r = true <-> mining_keeps p r) /\
        mining_f p raw = filter keep raw).
Proof.
  intros p raw. split.
  - intros r. unfold mining_f. rewrite filter_In.
    change (In r raw /\ mining_keep p r = true <-> In r raw /\ mining_keeps p r).
    rewrite mining_keep_spec. tauto.
  - exists (mining_keep p). split.
    + intros r. apply mining_keep_spec.
    + reflexivity.
Qed.

Lemma economy_f_filter (p : params) (raw : list Economy.row) :
  economy_f p raw = filter (economy_keep p) raw.
Proof.
  unfold economy_f, economy_keep. destruct (honest_only p).
  - apply filter_and.
  - apply filter_ext_in'. intros x _. now rewrite andb_true_r.
Qed.

Lemma economy_f_length (p : params) (raw : list Economy.row) :
  (len (economy_f p raw) <= len raw)%nat.
Proof. rewrite economy_f_filter. apply filter_length_le. Qed.

Lemma activity_f_length (p : params) (raw : list Activity.row) :
  (len (activity_f p raw) <= len raw)%nat.
Proof. rewrite activity_f_filter. apply filter_length_le. Qed.

(** C7.  Every filtered table has at most as many records as its raw table;
    and with the widest day range (1, max_days) over raw tables whose days
    lie in that range, biome and resource selections that contain every
    value of the raw Mining table, and both flags off, the filter returns
    exactly the mode-matching subset of the raw tables. *)
Theorem filter_monotone_and_full_selection :
  forall (p : params) (raw : tables),
    ((len (activity_f p (activity raw)) <= len (activity raw))%nat /\
     (len (mining_f p (mining raw)) <= len (mining raw))%nat /\
     (len (economy_f p (economy raw)) <= len (economy raw))%nat /\
     (len (deaths_f p (deaths raw)) <= len (deaths raw))%nat) /\
    (forall max_days : Z,
        days_within max_days raw ->
        day_range p = (1, max_days) ->
        (forall r, In r (mining raw) -> In (Mining.biome r) (selected_biomes p)) ->
        (forall r, In r (mining raw) -> In (Mining.resource r) (selected_resources p)) ->
        active_only p = false ->
        honest_only p = false ->
        global_filtering p raw = Returned (mode_subset (mode p) raw)).
Proof.
  intros p raw. split.
  - repeat split.
    + apply activity_f_length.
    + apply filter_length_le.
    + apply economy_f_length.
    + apply filter_length_le.
  - intros max_days (Ha & Hm & He & Hd) Hr Hb Hres Hact Hhon.
    unfold global_filtering, mode_subset. f_equal.
    rewrite Forall_forall in Ha, Hm, He, Hd.
    unfold activity_f, mining_f, economy_f, deaths_f.
    rewrite Hr, Hact, Hhon. simpl fst. simpl snd. f_equal.
    + apply filter_ext_in'. intros r Hin.
      now rewrite (proj2 (between_spec 1 max_days _) (Ha r Hin)).
    + apply filter_ext_in'. intros r Hin.
      rewrite (proj2 (between_spec 1 max_days _) (Hm r Hin)).
      rewrite (proj2 (isin_spec _ _) (Hb r Hin)).
      rewrite (proj2 (isin_spec _ _) (Hres r Hin)).
      now rewrite !andb_true_r.
    + apply filter_ext_in'. intros r Hin.
      now rewrite (proj2 (between_spec 1 max_days _) (He r Hin)).
    + apply filter_ext_in'. intros r Hin.
      now rewrite (proj2 (between_spec 1 max_days _) (Hd r Hin)).
Qed.

Lemma filter_monotone_and_full_selection_witness :
  days_within 2 sample_raw /\
  global_filtering (default_params "Survival" 2 sample_raw) sample_raw
  = Returned (mode_subset "Survival" sample_raw).
Proof.
  assert (Hd : days_within 2 sample_raw).
  { unfold days_within, sample_raw; simpl.
    repeat split; repeat constructor; simpl; lia. }
  split; [exact Hd |].
  apply (proj2 (filter_monotone_and_full_selection
                  (default_params "Survival" 2 sample_raw) sample_raw) 2).
  - exact Hd.
  - reflexivity.
  - intros r Hin. apply default_options_full. now apply in_map.
  - intros r Hin. apply default_options_full. now apply in_map.
  - reflexivity.
  - reflexivity.
Defined.

(** C8.  Filtering is idempotent: running the filter block, with the same
    parameters, on the tables it returned returns the same tables. *)
Theorem global_filtering_idempotent :
  forall (p : params) (raw : tables),
    obind (global_filtering p raw) (global_filtering p) = global_filtering p raw.
Proof.
  intros p raw. unfold global_filtering, obind. cbn [activity mining economy deaths].
  f_equal. f_equal.
  - rewrite !activity_f_filter. apply filter_idem.
  - apply filter_idem.
  - rewrite !economy_f_filter. apply filter_idem.
  - apply filter_idem.
Qed.

(** C5, as stated, fails: with day_lo = 5 > day_hi = 3 the filter block
    raises nothing and returns four empty tables; so it does with a mode
    that is none of the three known ones. *)
Lemma reversed_day_range_not_rejected :
  global_filtering reversed_params sample_raw = Returned no_tables /\
  global_filtering unknown_mode_params sample_raw = Returned no_tables /\
  (forall e : exn, global_filtering reversed_params sample_raw <> Raised e) /\
  (forall e : exn, global_filtering unknown_mode_params sample_raw <> Raised e).
Proof.
  repeat split; try reflexivity; intros e; discriminate.
Qed.

Lemma between_reversed (lo hi x : Z) : hi < lo -> between lo hi x = false.
Proof.
  intros H. destruct (between lo hi x) eqn:E; [| reflexivity].
  apply between_spec in E. lia.
Qed.

(** C5, amended.  The filter block has no validation: for a parameter set
    with day_lo > day_hi, or whose mode no raw record carries, it raises
    nothing and returns four empty filtered tables. *)
Theorem malformed_params_give_empty_tables :
  forall (p : params) (raw : tables),
    snd (day_range p) < fst (day_range p) \/ mode_absent (mode p) raw ->
    global_filtering p raw = Returned no_tables.
Proof.
  intros p raw H. unfold global_filtering, no_tables. f_equal.
  assert (Ha : forall r, In r (activity raw) ->
             between (fst (day_range p)) (snd (day_range p)) (Activity.day r)
             && (Activity.mode r =? mode p)%string = false).
  { intros r Hin. destruct H as [H | (H & _)].
    - now rewrite between_reversed.
    - rewrite Forall_forall in H. apply andb_false_iff. right.
      apply String.eqb_neq. now apply H. }
  assert (Hm : forall r, In r (mining raw) ->
             between (fst (day_range p)) (snd (day_range p)) (Mining.day r)
             && (Mining.mode r =? mode p)%string = false).
  { intros r Hin. destruct H as [H | (_ & H & _)].
    - now rewrite between_reversed.
    - rewrite Forall_forall in H. apply andb_false_iff. right.
      apply String.eqb_neq. now apply H. }
  assert (He : forall r, In r (economy raw) ->
             between (fst (day_range p)) (snd (day_range p)) (Economy.day r)
             && (Economy.mode r =? mode p)%string = false).
  { intros r Hin. destruct H as [H | (_ & _ & H & _)].
    - now rewrite between_reversed.
    - rewrite Forall_forall in H. apply andb_false_iff. right.
      apply String.eqb_neq. now apply H. }
  assert (Hd : forall r, In r (deaths raw) ->
             between (fst (day_range p)) (snd (day_range p)) (Deaths.day r)
             && (Deaths.mode r =? mode p)%string = false).
  { intros r Hin. destruct H as [H | (_ & _ & _ & H)].
    - now rewrite between_reversed.
    - rewrite Forall_forall in H. apply andb_false_iff. right.
      apply String.eqb_neq. now apply H. }
  f_equal.
  - unfold activity_f. rewrite (filter_none _ _ Ha). now destruct (active_only p).
  - unfold mining_f. apply filter_none. intros r Hin. now rewrite (Hm r Hin).
  - unfold economy_f. rewrite (filter_none _ _ He). now destruct (honest_only p).
  - unfold deaths_f. now apply filter_none.
Qed.

Lemma malformed_params_give_empty_tables_witness :
  snd (day_range reversed_params) < fst (day_range reversed_params) /\
  global_filtering reversed_params sample_raw = Returned no_tables.
Proof.
  split; [reflexivity |].
  apply (malformed_params_give_empty_tables reversed_params sample_raw).
  left. reflexivity.
Defined.

(** * Insertion sorts meet the contract of [sort_values] *)

Section InsertionSort.

Variable before : string * Q -> string * Q -> bool.
Hypothesis before_true : forall x y, before x y = true -> desc x y.
Hypothesis before_false : forall x y, before x y = false -> desc y x.

Lemma insert_by_perm (x : string * Q) (s : Series) :
  Permutation (insert_by before x s) (x :: s).
Proof.
  induction s as [| y s IH]; simpl; [reflexivity |].
  destruct (before x y); [reflexivity |].
  rewrite IH. apply perm_swap.
Qed.

Lemma sort_by_perm (s : Series) : Permutation (sort_by before s) s.
Proof.
  induction s as [| x s IH]; simpl; [reflexivity |].
  rewrite insert_by_perm. now constructor.
Qed.

Lemma desc_trans (a b c : string * Q) : desc a b -> desc b c -> desc a c.
Proof. unfold desc. intros H1 H2. eapply Qle_trans; eassumption. Qed.

Lemma insert_by_sorted (x : string * Q) (s : Series) :
  StronglySorted desc s -> StronglySorted desc (insert_by before x s).
Proof.
  induction s as [| y s IH]; intros Hs; simpl.
  - repeat constructor.
  - inversion Hs as [| ? ? Hs' Hall]; subst.
    destruct (before x y) eqn:E.
    + constructor; [assumption |]. constructor; [now apply before_true |].
      eapply Forall_impl; [| exact Hall].
      intros z Hz. eapply desc_trans; [apply before_true; exact E | exact Hz].
    + constructor; [now apply IH |].
      rewrite insert_by_perm.
      constructor; [now apply before_false | assumption].
Qed.

Lemma sort_by_sorted (s : Series) : StronglySorted desc (sort_by before s).
Proof.
  induction s as [| x s IH]; simpl; [constructor |].
  now apply insert_by_sorted.
Qed.

End InsertionSort.

Lemma before_stable_true (x y : string * Q) : before_stable x y = true -> desc x y.
Proof. unfold before_stable, desc. apply Qle_bool_iff. Qed.

Lemma before_stable_false (x y : string * Q) : before_stable x y = false -> desc y x.
Proof.
  unfold before_stable, desc. intros E. apply Qlt_le_weak, Qgtb_spec.
  unfold Qgtb. now rewrite E.
Qed.

#[local] Instance stable_sort : SortValues :=
  {| sort_values_desc := sort_by before_stable;
     sort_values_perm := sort_by_perm before_stable;
     sort_values_sorted :=
       sort_by_sorted before_stable before_stable_true before_stable_false |}.

(** * KPIs *)

Lemma of_nat_nonzero (n : nat) : (0 < n)%nat -> Qeq_bool (of_nat n) 0 = false.
Proof.
  intros Hn. destruct (Qeq_bool (of_nat n) 0) eqn:E; [| reflexivity].
  apply Qeq_bool_iff in E. unfold Qeq, of_nat in E. simpl in E. lia.
Qed.

Lemma truediv_of_nat (a : Q) (n : nat) :
  (0 < n)%nat -> truediv a (of_nat n) = Returned (a / of_nat n)%Q.
Proof. intros Hn. unfold truediv. now rewrite of_nat_nonzero. Qed.

Lemma chaos_ratio_returns (deaths_count unique_players : nat) :
  chaos_ratio deaths_count unique_players
  = Returned (of_nat deaths_count / of_nat (Nat.max unique_players 1))%Q.
Proof. unfold chaos_ratio. apply truediv_of_nat. lia. Qed.

(** C1, as stated, fails: filtering the sample tables for Hardcore leaves
    one death and no activity, so unique_players = 0 and the Chaos-tab
    index is deaths_count / max(0, 1) = 1, not 0; on the same input the
    Statistics tab shows 0, which is not
    deaths_count / max(unique_players, 1). *)
Lemma chaos_index_nonzero_without_players :
  activity_f hardcore_params (activity sample_raw) = [] /\
  len (deaths_f hardcore_params (deaths sample_raw)) = 1%nat /\
  nunique (map Activity.player (activity_f hardcore_params (activity sample_raw))) = 0%nat /\
  (exists q, tab5_chaos_index (deaths_f hardcore_params (deaths sample_raw))
                              (activity_f hardcore_params (activity sample_raw))
             = Returned q /\ (q == 1)%Q /\ ~ (q == 0)%Q) /\
  (exists q, statistics_chaos_index 1 0 = Returned q /\
             ~ (q == of_nat 1 / of_nat (Nat.max 0 1))%Q).
Proof.
  split; [reflexivity |]. split; [reflexivity |]. split; [reflexivity |]. split.
  - exists (1 / 1)%Q. repeat split; try reflexivity. discriminate.
  - exists 0%Q. split; [reflexivity | discriminate].
Qed.

(** C1, amended.  The Chaos-tab index equals
    deaths_count / max(unique_players, 1) on every filtered input; at
    deaths_count = 10, unique_players = 5 it is 2.0; at unique_players = 0 it
    is deaths_count itself (0 only when there are no deaths).  The
    Statistics-tab index equals the same quotient when unique_players > 0
    and is 0 when unique_players = 0. *)
Theorem chaos_index_formulas :
  (forall (deaths_f : list Deaths.row) (activity_f : list Activity.row),
      tab5_chaos_index deaths_f activity_f
      = Returned (of_nat (len deaths_f)
                  / of_nat (Nat.max (nunique (map Activity.player activity_f)) 1))%Q) /\
  (exists q, chaos_ratio 10 5 = Returned q /\ (q == 2)%Q) /\
  (forall deaths_count : nat,
      exists q, chaos_ratio deaths_count 0 = Returned q /\ (q == of_nat deaths_count)%Q) /\
  (forall deaths_count unique_players : nat,
      statistics_chaos_index deaths_count (S unique_players)
      = chaos_ratio deaths_count (S unique_players)) /\
  (forall deaths_count : nat, statistics_chaos_index deaths_count 0 = Returned 0%Q).
Proof.
  repeat split.
  - intros deaths_f activity_f. apply chaos_ratio_returns.
  - exists (10 / 5)%Q. split; reflexivity.
  - intros d. rewrite chaos_ratio_returns. eexists. split; [reflexivity |].
    simpl. unfold Qdiv, of_nat. change (/ inject_Z (Z.of_nat 1))%Q with 1%Q.
    apply Qmult_1_r.
  - intros d u. unfold statistics_chaos_index, chaos_ratio.
    now rewrite Nat.max_l by lia.
Qed.

Lemma idxmax_returns (s : Series) : s <> [] -> exists v, idxmax s = Returned v.
Proof. destruct s as [| e s]; [congruence |]. intros _. simpl. eauto. Qed.

Lemma value_counts_nonempty `{SortValues} (x : string) (col : list string) :
  value_counts (x :: col) <> [].
Proof.
  unfold value_counts. intros E.
  pose proof (sort_values_perm
                (map (fun v => (v, inject_Z (Z.of_nat (count v (x :: col)))))
                     (unique (x :: col) []))) as P.
  rewrite E in P. apply Permutation_nil in P. simpl in P. discriminate.
Qed.

Lemma statistics_top_returns `{SortValues}
  (mining_f : list Mining.row) (col : Mining.row -> string) :
  exists v, statistics_top mining_f col = Returned v.
Proof.
  unfold statistics_top. destruct mining_f as [| r l]; simpl.
  - eauto.
  - apply idxmax_returns, value_counts_nonempty.
Qed.

Lemma statistics_avg_playtime_returns (total : Q) (unique_players : nat) :
  exists q, statistics_avg_playtime total unique_players = Returned q.
Proof.
  unfold statistics_avg_playtime. destruct (Nat.ltb_spec 0 unique_players).
  - rewrite truediv_of_nat by assumption. eauto.
  - eauto.
Qed.

Lemma statistics_chaos_index_returns (deaths_count unique_players : nat) :
  exists q, statistics_chaos_index deaths_count unique_players = Returned q.
Proof.
  unfold statistics_chaos_index. destruct (Nat.ltb_spec 0 unique_players).
  - rewrite truediv_of_nat by assumption. eauto.
  - eauto.
Qed.

(** C4.  Whatever the sort implementation, the KPI block never raises
    (neither the guarded divisions nor the guarded idxmax); on an empty
    filtered Activity table it returns unique_players = 0 and
    avg_playtime = 0, and on an empty filtered Mining table top_biome and
    top_resource are the sentinel. *)
Theorem statistics_kpis_total :
  forall (sorter : SortValues) (activity_f : list Activity.row)
         (mining_f : list Mining.row) (deaths_f : list Deaths.row),
    (exists k, statistics_kpis activity_f mining_f deaths_f = Returned k) /\
    (exists k, statistics_kpis [] mining_f deaths_f = Returned k /\
               unique_players k = 0%nat /\ avg_playtime k = 0%Q /\ chaos_index k = 0%Q) /\
    (exists k, statistics_kpis activity_f [] deaths_f = Returned k /\
               top_biome k = sentinel /\ top_resource k = sentinel /\
               mining_events k = 0%nat).
Proof.
  intros sorter activity_f mining_f deaths_f.
  assert (T : forall a m d, exists k, statistics_kpis a m d = Returned k /\
               unique_players k = nunique (map Activity.player a) /\
               statistics_avg_playtime (sum (map Activity.hours_played a))
                 (nunique (map Activity.player a)) = Returned (avg_playtime k) /\
               statistics_chaos_index (len d) (nunique (map Activity.player a))
                 = Returned (chaos_index k) /\
               statistics_top m Mining.biome = Returned (top_biome k) /\
               statistics_top m Mining.resource = Returned (top_resource k) /\
               mining_events k = len m).
  { intros a m d. unfold statistics_kpis.
    destruct (statistics_avg_playtime_returns (sum (map Activity.hours_played a))
                (nunique (map Activity.player a))) as (q1 & ->).
    destruct (statistics_chaos_index_returns (len d) (nunique (map Activity.player a)))
      as (q2 & ->).
    destruct (statistics_top_returns m Mining.biome) as (b & ->).
    destruct (statistics_top_returns m Mining.resource) as (r & ->).
    simpl. eexists. split; [reflexivity |]. simpl. repeat split. }
  repeat split.
  - destruct (T activity_f mining_f deaths_f) as (k & E & _). eauto.
  - destruct (T [] mining_f deaths_f) as (k & E & U & A & C & _).
    exists k. repeat split; try assumption.
    + change (Returned 0%Q = Returned (avg_playtime k)) in A. congruence.
    + change (Returned 0%Q = Returned (chaos_index k)) in C. congruence.
  - destruct (T activity_f [] deaths_f) as (k & E & _ & _ & _ & B & R & M).
    exists k. repeat split; try assumption.
    + change (Returned sentinel = Returned (top_biome k)) in B. congruence.
    + change (Returned sentinel = Returned (top_resource k)) in R. congruence.
Qed.

Lemma statistics_kpis_total_witness :
  exists k,
    @statistics_kpis stable_sort
      (activity_f sample_params (activity sample_raw))
      (mining_f sample_params (mining sample_raw))
      (deaths_f sample_params (deaths sample_raw)) = Returned k.
Proof.
  exact (proj1 (statistics_kpis_total stable_sort
                  (activity_f sample_params (activity sample_raw))
                  (mining_f sample_params (mining sample_raw))
                  (deaths_f sample_params (deaths sample_raw)))).
Defined.

(** The KPI block on the filtered sample tables. *)
Example statistics_kpis_sample :
  @statistics_kpis stable_sort
    (activity_f sample_params (activity sample_raw))
    (mining_f sample_params (mining sample_raw))
    (deaths_f sample_params (deaths sample_raw))
  = Returned {| unique_players := 2; total_playtime := 8; avg_playtime := 8 # 2;
                mining_events := 2; deaths_count := 1; chaos_index := 1 # 2;
                top_biome := "Forest"; top_resource := "Iron" |}.
Proof. vm_compute. reflexivity. Qed.

(** * Top players *)

Lemma insert_sorted_length (x : string) (l : list string) :
  List.length (insert_sorted x l) = S (List.length l).
Proof.
  induction l as [| y l IH]; simpl; [reflexivity |].
  destruct (String.leb x y); simpl; [reflexivity | now rewrite IH].
Qed.

Lemma sorted_length (l : list string) : List.length (sorted l) = List.length l.
Proof.
  induction l as [| x l IH]; simpl; [reflexivity |].
  now rewrite insert_sorted_length, IH.
Qed.

Lemma unique_sound (l seen : list string) (x : string) :
  In x (unique l seen) -> In x l /\ ~ In x seen.
Proof.
  revert seen. induction l as [| y l IH]; intros seen Hx; [contradiction |].
  simpl in Hx. destruct (isin seen y) eqn:E.
  - destruct (IH _ Hx). split; [now right | assumption].
  - destruct Hx as [<- | Hx].
    + split; [now left |]. intros Hin. apply isin_spec in Hin. congruence.
    + destruct (IH _ Hx) as (H1 & H2). split; [now right |].
      intros Hin. apply H2. now right.
Qed.

Lemma unique_NoDup (l seen : list string) : NoDup (unique l seen).
Proof.
  revert seen. induction l as [| y l IH]; intros seen; simpl; [constructor |].
  destruct (isin seen y); [apply IH |].
  constructor; [| apply IH].
  intros Hin. apply unique_sound in Hin. apply (proj2 Hin). now left.
Qed.

Lemma insert_sorted_perm (x : string) (l : list string) :
  Permutation (insert_sorted x l) (x :: l).
Proof.
  induction l as [| y l IH]; simpl; [reflexivity |].
  destruct (String.leb x y); [reflexivity |].
  rewrite IH. apply perm_swap.
Qed.

Lemma sorted_perm (l : list string) : Permutation (sorted l) l.
Proof.
  induction l as [| x l IH]; simpl; [reflexivity |].
  rewrite insert_sorted_perm. now constructor.
Qed.

Lemma playtime_rows_fst (activity_f : list Activity.row) :
  map fst (playtime_rows activity_f) = map Activity.player activity_f.
Proof. unfold playtime_rows. rewrite map_map. reflexivity. Qed.

Lemma playtime_rows_group (activity_f : list Activity.row) (k : string) :
  sum (map snd (filter (fun kv => (fst kv =? k)%string) (playtime_rows activity_f)))
  = total activity_f k.
Proof.
  unfold total, playtime_rows. f_equal.
  induction activity_f as [| r l IH]; simpl; [reflexivity |].
  destruct (Activity.player r =? k)%string; simpl; now rewrite IH.
Qed.

(** The grouped Series: one entry per player of the table, with its total. *)
Lemma groupby_sum_entries (activity_f : list Activity.row) (p : string) (v : Q) :
  In (p, v) (groupby_sum (playtime_rows activity_f)) <->
  In p (map Activity.player activity_f) /\ v = total activity_f p.
Proof.
  unfold groupby_sum. rewrite in_map_iff, playtime_rows_fst. split.
  - intros (k & E & Hk). inversion E; subst. split.
    + apply (proj1 (sorted_In _ _)) in Hk. now apply unique_sound in Hk.
    + apply playtime_rows_group.
  - intros (Hp & ->). exists p. split.
    + now rewrite playtime_rows_group.
    + now apply default_options_full.
Qed.

Lemma groupby_sum_keys (rows : list (string * Q)) :
  map fst (groupby_sum rows) = sorted (unique (map fst rows) []).
Proof. unfold groupby_sum. rewrite map_map. simpl. apply map_id. Qed.

Lemma groupby_sum_length (activity_f : list Activity.row) :
  len (groupby_sum (playtime_rows activity_f)) = nunique (map Activity.player activity_f).
Proof.
  unfold len, nunique. rewrite <- (length_map fst), groupby_sum_keys, sorted_length.
  now rewrite playtime_rows_fst.
Qed.

Lemma In_firstn_full {A : Type} (n : nat) (l : list A) (x : A) :
  In x (firstn n l) -> In x l.
Proof.
  intros H. rewrite <- (firstn_skipn n l). apply in_or_app. now left.
Qed.

Lemma StronglySorted_firstn {A : Type} (R : A -> A -> Prop) (n : nat) (l : list A) :
  StronglySorted R l -> StronglySorted R (firstn n l).
Proof.
  revert n. induction l as [| x l IH]; intros n Hs.
  - destruct n; constructor.
  - destruct n; simpl; [constructor |].
    inversion Hs as [| ? ? Hs' Hall]; subst. constructor; [now apply IH |].
    rewrite Forall_forall in *. intros y Hy. apply Hall.
    eapply In_firstn_full; eassumption.
Qed.

Lemma NoDup_firstn {A : Type} (n : nat) (l : list A) : NoDup l -> NoDup (firstn n l).
Proof.
  intros H. rewrite <- (firstn_skipn n l) in H. now apply NoDup_app_remove_r in H.
Qed.

(** ** Order among tied entries *)

Lemma precedes_cons (a b x : string * Q) (s : Series) :
  precedes a b s -> precedes a b (x :: s).
Proof.
  intros (i & j & Hlt & Hi & Hj). exists (S i), (S j). repeat split; [lia | |]; assumption.
Qed.

Lemma precedes_head (x b : string * Q) (s : Series) :
  In b s -> precedes x b (x :: s).
Proof.
  intros Hb. apply In_nth_error in Hb. destruct Hb as (j & Hj).
  exists 0%nat, (S j). repeat split; [lia | assumption].
Qed.

Lemma precedes_inv (a b x : string * Q) (s : Series) :
  precedes a b (x :: s) -> (a = x /\ In b s) \/ precedes a b s.
Proof.
  intros (i & j & Hlt & Hi & Hj).
  destruct j as [| j]; [lia |]. simpl in Hj.
  destruct i as [| i]; simpl in Hi.
  - left. split; [congruence | eapply nth_error_In; eassumption].
  - right. exists i, j. repeat split; [lia | |]; assumption.
Qed.

Lemma precedes_firstn (a b : string * Q) (n : nat) (s : Series) :
  precedes a b (firstn n s) -> precedes a b s.
Proof.
  revert s. induction n as [| n IH]; intros s H.
  - destruct H as (i & j & _ & Hi & _). destruct i; discriminate.
  - destruct s as [| x s]; [exact H |]. simpl in H.
    apply precedes_inv in H. destruct H as [(-> & Hb) | H].
    + apply precedes_head. eapply In_firstn_full; eassumption.
    + apply precedes_cons. now apply IH.
Qed.

(** Inserting with [before_stable] never moves the new entry behind an
    entry of equal value. *)
Lemma insert_stable (x a b : string * Q) (s : Series) :
  precedes a b (insert_by before_stable x s) ->
  (snd a == snd b)%Q ->
  precedes a b (x :: s).
Proof.
  induction s as [| y s IH]; intros H Htie; simpl in H; [exact H |].
  destruct (before_stable x y) eqn:E; [exact H |].
  apply precedes_inv in H. destruct H as [(-> & Hb) | H].
  - apply (Permutation_in _ (insert_by_perm before_stable x s)) in Hb.
    destruct Hb as [<- | Hb].
    + exfalso. unfold before_stable in E.
      assert (L : Qle_bool (snd y) (snd x) = true) by (apply Qle_bool_iff; now rewrite Htie; apply Qle_refl).
      congruence.
    + apply precedes_cons, precedes_head. exact Hb.
  - specialize (IH H Htie). apply precedes_inv in IH.
    destruct IH as [(-> & Hb) | IH].
    + apply precedes_head. now right.
    + now apply precedes_cons, precedes_cons.
Qed.

Lemma sort_by_stable (a b : string * Q) (s : Series) :
  precedes a b (sort_by before_stable s) ->
  (snd a == snd b)%Q ->
  precedes a b s.
Proof.
  induction s as [| x s IH]; intros H Htie; simpl in H; [exact H |].
  apply insert_stable in H; [| exact Htie].
  apply precedes_inv in H. destruct H as [(-> & Hb) | H].
  - apply precedes_head.
    exact (Permutation_in _ (sort_by_perm before_stable s) Hb).
  - apply precedes_cons. now apply IH.
Qed.

Lemma stable_sort_stable : stable (@sort_values_desc stable_sort).
Proof. intros s a b. apply sort_by_stable. Qed.

Lemma groupby_sum_NoDup (rows : list (string * Q)) : NoDup (groupby_sum rows).
Proof.
  apply (NoDup_map_inv fst). rewrite groupby_sum_keys.
  apply (Permutation_NoDup (l := unique (map fst rows) [])).
  - symmetry. apply sorted_perm.
  - apply unique_NoDup.
Qed.

Lemma position_unique (s : Series) (a : string * Q) (i j : nat) :
  NoDup s -> nth_error s i = Some a -> nth_error s j = Some a -> i = j.
Proof.
  intros Hnd Hi Hj. apply (proj1 (NoDup_nth_error s) Hnd).
  - apply nth_error_Some. congruence.
  - congruence.
Qed.

(** C9, as stated, fails.  Eighteen players total one hour each, so all
    sums tie; the groupby lists them in ascending name order, Player_7
    before Player_8.  The code's sort (pandas' descending path over
    numpy's quicksort) partitions the eighteen entries and returns
    Player_8 before Player_7. *)
Lemma quicksort_breaks_tie_order :
  map fst (groupby_sum (playtime_rows eighteen_tied))
  = ["Player_1"; "Player_10"; "Player_11"; "Player_12"; "Player_13"; "Player_14";
     "Player_15"; "Player_16"; "Player_17"; "Player_18"; "Player_2"; "Player_3";
     "Player_4"; "Player_5"; "Player_6"; "Player_7"; "Player_8"; "Player_9"] /\
  Forall (fun e => snd e = 1%Q) (groupby_sum (playtime_rows eighteen_tied)) /\
  exists out : Series,
    top_players_quicksort eighteen_tied = Some out /\
    map fst out
    = ["Player_1"; "Player_10"; "Player_8"; "Player_7"; "Player_6"; "Player_5";
       "Player_4"; "Player_3"; "Player_2"; "Player_18"; "Player_17"; "Player_16";
       "Player_15"; "Player_14"; "Player_13"] /\
    ~ keeps_tie_order out (groupby_sum (playtime_rows eighteen_tied)).
Proof.
  pose proof (groupby_sum_NoDup (playtime_rows eighteen_tied)) as ND.
  set (g := groupby_sum (playtime_rows eighteen_tied)) in *.
  assert (G : g = map (fun p => (p, 1%Q))
                      ["Player_1"; "Player_10"; "Player_11"; "Player_12"; "Player_13";
                       "Player_14"; "Player_15"; "Player_16"; "Player_17"; "Player_18";
                       "Player_2"; "Player_3"; "Player_4"; "Player_5"; "Player_6";
                       "Player_7"; "Player_8"; "Player_9"]%string)
    by (vm_compute; reflexivity).
  split; [rewrite G; reflexivity |].
  split; [rewrite G; repeat constructor |].
  exists (map (fun p => (p, 1%Q))
              ["Player_1"; "Player_10"; "Player_8"; "Player_7"; "Player_6"; "Player_5";
               "Player_4"; "Player_3"; "Player_2"; "Player_18"; "Player_17"; "Player_16";
               "Player_15"; "Player_14"; "Player_13"]%string).
  split; [vm_compute; reflexivity |]. split; [reflexivity |].
  intros H.
  destruct (H ("Player_8"%string, 1%Q) ("Player_7"%string, 1%Q)) as (i & j & Hlt & Hi & Hj).
  - exists 2%nat, 3%nat. repeat split. lia.
  - reflexivity.
  - assert (Ei : i = 16%nat) by (apply (position_unique g _ _ _ ND Hi); rewrite G; reflexivity).
    assert (Ej : j = 15%nat) by (apply (position_unique g _ _ _ ND Hj); rewrite G; reflexivity).
    lia.
Qed.

Lemma sorted_head_max (full : Series) (e h : string * Q) (rest : Series) :
  StronglySorted desc full -> full = h :: rest -> In e full -> (snd e <= snd h)%Q.
Proof.
  intros Hs -> [<- | Hin]; [apply Qle_refl |].
  inversion Hs as [| ? ? _ Hall]; subst.
  rewrite Forall_forall in Hall. exact (Hall e Hin).
Qed.

(** On few entries the same sort keeps ties in grouping order: Player_1 and
    Player_2 both total 5 hours. *)
Example quicksort_small_ties :
  top_players_quicksort
    [ Activity.mk 1 "Player_1" 5 "Miner" "Survival";
      Activity.mk 1 "Player_2" 3 "Builder" "Survival";
      Activity.mk 2 "Player_2" 2 "Builder" "Survival";
      Activity.mk 2 "Player_3" 1 "Fighter" "Survival" ]
  = Some [("Player_1", 5%Q); ("Player_2", 5%Q); ("Player_3", 1%Q)].
Proof. vm_compute. reflexivity. Qed.

(** Twenty distinct values come out in descending order. *)
Example quicksort_sorts :
  option_map (map snd)
    (sort_values_quicksort
       (map (fun i => (str i, inject_Z ((7 * i) mod 20))) (range 0 20)))
  = Some (map inject_Z [19; 18; 17; 16; 15; 14; 13; 12; 11; 10; 9; 8; 7; 6; 5; 4; 3; 2; 1; 0]).
Proof. vm_compute. reflexivity. Qed.

(** C9, amended.  For every sort meeting the contract of the default
    [sort_values]: the output is the first 15 entries of a descending
    rearrangement of the grouped Series, which holds one entry per player
    of the table with that player's summed hours_played; so it has
    min(15, number of players) rows, in non-increasing order of total,
    no player twice.  A player whose total strictly exceeds every other
    player's is first.  Entries of equal total keep their grouping order
    whenever the sort is stable. *)
Theorem top_players_spec :
  forall (sorter : SortValues) (activity_f : list Activity.row),
    (exists full : Series,
        top_players activity_f = firstn 15 full /\
        Permutation full (groupby_sum (playtime_rows activity_f)) /\
        StronglySorted desc full) /\
    (forall p v, In (p, v) (groupby_sum (playtime_rows activity_f)) <->
                 In p (map Activity.player activity_f) /\ v = total activity_f p) /\
    len (top_players activity_f)
    = Nat.min 15 (nunique (map Activity.player activity_f)) /\
    StronglySorted desc (top_players activity_f) /\
    NoDup (map fst (top_players activity_f)) /\
    (forall p : string,
        In p (map Activity.player activity_f) ->
        (forall p', In p' (map Activity.player activity_f) -> p' <> p ->
                    (total activity_f p' < total activity_f p)%Q) ->
        hd_error (top_players activity_f) = Some (p, total activity_f p)) /\
    (stable sort_values_desc ->
     keeps_tie_order (top_players activity_f) (groupby_sum (playtime_rows activity_f))).
Proof.
  intros sorter activity_f.
  set (g := groupby_sum (playtime_rows activity_f)).
  assert (P : Permutation (sort_values_desc g) g) by apply sort_values_perm.
  assert (Hs : StronglySorted desc (sort_values_desc g)) by apply sort_values_sorted.
  split; [| split; [| split; [| split; [| split; [| split]]]]].
  - exists (sort_values_desc g). now repeat split.
  - intros p v. apply groupby_sum_entries.
  - unfold top_players, head, len. fold (playtime_rows activity_f). fold g.
    rewrite length_firstn, (Permutation_length P).
    now rewrite <- groupby_sum_length.
  - unfold top_players, head. now apply StronglySorted_firstn.
  - unfold top_players, head. fold (playtime_rows activity_f). fold g.
    rewrite <- firstn_map. apply NoDup_firstn.
    apply (Permutation_NoDup (l := map fst g)).
    + symmetry. now apply Permutation_map.
    + unfold g. rewrite groupby_sum_keys.
      apply (Permutation_NoDup (l := unique (map fst (playtime_rows activity_f)) [])).
      * symmetry. apply sorted_perm.
      * apply unique_NoDup.
  - intros p Hp Hmax.
    unfold top_players, head. fold (playtime_rows activity_f). fold g.
    assert (Hin : In (p, total activity_f p) (sort_values_desc g)).
    { apply (Permutation_in _ (Permutation_sym P)).
      apply groupby_sum_entries. now split. }
    destruct (sort_values_desc g) as [| [p0 v0] rest] eqn:E; [contradiction |].
    simpl. f_equal.
    assert (H0 : In (p0, v0) g).
    { apply (Permutation_in _ P). now left. }
    apply groupby_sum_entries in H0. destruct H0 as (Hp0 & ->).
    destruct (string_dec p0 p) as [-> | Hne]; [reflexivity |].
    exfalso. pose proof (sorted_head_max _ _ _ _ Hs eq_refl Hin) as L. simpl in L.
    exact (Qlt_not_le _ _ (Hmax p0 Hp0 Hne) L).
  - intros St a b Hab Htie. unfold top_players, head in Hab.
    apply precedes_firstn in Hab. exact (St _ a b Hab Htie).
Qed.

Lemma top_players_spec_witness :
  In "Player_1" (map Activity.player sample_raw.(activity)) /\
  stable (@sort_values_desc stable_sort) /\
  @top_players stable_sort (activity sample_raw) =
    [("Player_1", 15%Q); ("Player_2", 3%Q); ("Player_3", (3 # 2)%Q)] /\
  hd_error (@top_players stable_sort (activity sample_raw))
  = Some ("Player_1", total (activity sample_raw) "Player_1") /\
  keeps_tie_order (@top_players stable_sort (activity sample_raw))
                  (groupby_sum (playtime_rows (activity sample_raw))).
Proof.
  assert (Hin : In "Player_1" (map Activity.player sample_raw.(activity)))
    by (simpl; now left).
  split; [exact Hin |]. split; [exact stable_sort_stable |].
  split; [vm_compute; reflexivity |].
  destruct (top_players_spec stable_sort (activity sample_raw))
    as (_ & _ & _ & _ & _ & Hmax & Hties).
  split.
  - apply Hmax.
    + exact Hin.
    + intros p' Hp' Hne. simpl in Hp'.
      destruct Hp' as [<- | [<- | [<- | [<- | []]]]];
        try congruence; vm_compute; reflexivity.
  - exact (Hties stable_sort_stable).
Defined.

(** * The generator *)

Section Generator.

Context {numpy : RandomState}.

Lemma bind_returned {A B : Type} (m : Rand A) (k : A -> Rand B) (s s' : rng) (a : A) :
  m s = (Returned a, s') -> bind m k s = k a s'.
Proof. intros E. unfold bind. now rewrite E. Qed.

Lemma bind_raised {A B : Type} (m : Rand A) (k : A -> Rand B) (s s' : rng) (e : exn) :
  m s = (Raised e, s') -> bind m k s = (Raised e, s').
Proof. intros E. unfold bind. now rewrite E. Qed.

Lemma randint_zero (low high : Z) (s : rng) : randint low high 0 s = (Returned [], s).
Proof. reflexivity. Qed.

Lemma randint_invalid (low high size : Z) (s : rng) :
  size <> 0 -> high <= low \/ size < 0 -> randint low high size s = (Raised ValueError, s).
Proof.
  intros Hnz H. unfold randint.
  destruct (Z.eqb_spec size 0); [contradiction |].
  destruct (Z.leb_spec high low); [reflexivity |].
  destruct (Z.ltb_spec size 0); [reflexivity | lia].
Qed.

Lemma fill_returns {A : Type} (size : Z) (draw : rng -> A * rng) (s : rng) :
  exists (xs : list A) (s' : rng),
    fill size draw s = (Returned xs, s') /\ len xs = Z.to_nat size.
Proof.
  unfold fill. generalize (Z.to_nat size) as n. intros n. revert s.
  induction n as [| n IH]; intros s; simpl.
  - now exists [], s.
  - destruct (draw s) as [x s1]. destruct (IH s1) as (xs & s2 & E & L).
    destruct (draws n draw s1) as [ys s3]. injection E as -> ->.
    exists (x :: xs), s2. split; [reflexivity | unfold len in *; simpl; now rewrite L].
Qed.

Lemma randint_valid (low high size : Z) (s : rng) :
  0 <= size -> low < high ->
  exists xs s', randint low high size s = (Returned xs, s') /\ len xs = Z.to_nat size.
Proof.
  intros Hs Hr. unfold randint. destruct (Z.eqb_spec size 0) as [-> | Hnz].
  - now exists [], s.
  - destruct (Z.leb_spec high low); [lia |].
    destruct (Z.ltb_spec size 0); [lia |]. apply fill_returns.
Qed.

Lemma choice_zero {A : Type} (a : list A) (p : option (list Q)) (s : rng) :
  choice a 0 p s = (Returned [], s).
Proof. destruct a; reflexivity. Qed.

Lemma choice_empty {A : Type} (size : Z) (p : option (list Q)) (s : rng) :
  size <> 0 -> choice (@nil A) size p s = (Raised ValueError, s).
Proof. intros Hnz. unfold choice. now destruct (Z.eqb_spec size 0). Qed.

Lemma choice_valid {A : Type} (a : list A) (size : Z) (p : option (list Q)) (s : rng) :
  0 <= size -> a <> [] ->
  exists xs s', choice a size p s = (Returned xs, s') /\ len xs = Z.to_nat size.
Proof.
  intros Hs Ha. destruct a as [| a0 a]; [congruence |]. unfold choice.
  destruct (Z.ltb_spec size 0); [lia |]. apply fill_returns.
Qed.

Lemma gamma_valid (shape scale : Q) (size : Z) (s : rng) :
  0 <= size ->
  exists xs s', gamma shape scale size s = (Returned xs, s') /\ len xs = Z.to_nat size.
Proof.
  intros Hs. unfold gamma. destruct (Z.ltb_spec size 0); [lia |]. apply fill_returns.
Qed.

Lemma lognormal_valid (mean sigma : Q) (size : Z) (s : rng) :
  0 <= size ->
  exists xs s', lognormal mean sigma size s = (Returned xs, s') /\ len xs = Z.to_nat size.
Proof.
  intros Hs. unfold lognormal. destruct (Z.ltb_spec size 0); [lia |]. apply fill_returns.
Qed.

Lemma range_empty (lo hi : Z) : hi <= lo -> range lo hi = [].
Proof.
  intros H. unfold range. replace (Z.to_nat (hi - lo)) with 0%nat by lia. reflexivity.
Qed.

Lemma range_nonempty (lo hi : Z) : lo < hi -> range lo hi <> [].
Proof.
  intros H. unfold range. destruct (Z.to_nat (hi - lo)) eqn:E; [lia |]. discriminate.
Qed.

End Generator.

Ltac returned E := rewrite (bind_returned _ _ _ _ _ E); cbv beta.
Ltac raised E := rewrite (bind_raised _ _ _ _ _ E); cbv beta.

(** C10.  generate_data has no seed argument and begins by installing
    the state of seed 42, whatever the state was: two calls with the same
    (n_players, max_days) from any two generator states give the same
    outcome (the same four tables, or the same error) and leave the same
    generator state. *)
Theorem generate_data_ignores_prior_state :
  forall (numpy : RandomState) (n_players max_days : Z) (s1 s2 : rng),
    generate_data n_players max_days s1 = generate_data n_players max_days s2.
Proof.
  intros numpy n d s1 s2. unfold generate_data.
  rewrite (bind_returned _ _ s1 (seed 42) tt eq_refl).
  rewrite (bind_returned _ _ s2 (seed 42) tt eq_refl).
  reflexivity.
Qed.

(** C6.  With n_players <= 0 or max_days <= 0 the call raises ValueError
    and returns no tables: numpy rejects the first draw whose size is
    negative or whose day range is empty, and, for n_players = 0, the first
    non-empty draw from the empty player list. *)
Theorem generate_data_rejects_nonpositive :
  forall (numpy : RandomState) (n_players max_days : Z) (s : rng),
    n_players <= 0 \/ max_days <= 0 ->
    fst (generate_data n_players max_days s) = Raised ValueError.
Proof.
  intros numpy n d s H. unfold generate_data.
  returned (eq_refl : np_random_seed 42 s = (Returned tt, seed 42)).
  cbv zeta.
  destruct (Z.eq_dec (n * d) 0) as [H0 | Hnz].
  - rewrite H0.
    returned (randint_zero 1 (d + 1) (seed 42)).
    returned (choice_zero (map (fun i => ("Player_" ++ str i)%string) (range 1 (n + 1)))
                None (seed 42)).
    returned (eq_refl : gamma (22 # 10) (18 # 10) 0 (seed 42) = (Returned [], seed 42)).
    returned (choice_zero styles None (seed 42)).
    returned (choice_zero modes (Some [55 # 100; 25 # 100; 20 # 100]%Q) (seed 42)).
    match goal with
    | |- fst (bind (DataFrame ?l ?r) _ _) = _ =>
        returned (eq_refl : DataFrame l r (seed 42) = (Returned r, seed 42))
    end.
    destruct (Z_le_gt_dec d 0) as [Hd | Hd].
    + raised (randint_invalid 1 (d + 1) 12000 (seed 42) ltac:(discriminate)
                ltac:(left; lia)).
      reflexivity.
    + assert (n = 0) as -> by nia.
      destruct (randint_valid 1 (d + 1) 12000 (seed 42) ltac:(discriminate) ltac:(lia))
        as (xs & s' & E & _).
      returned E.
      rewrite (range_empty 1 (0 + 1)) by lia. cbv [map].
      raised (choice_empty (A := string) 12000 None s' ltac:(discriminate)).
      reflexivity.
  - raised (randint_invalid 1 (d + 1) (n * d) (seed 42) Hnz ltac:(nia)).
    reflexivity.
Qed.

Lemma generate_data_rejects_nonpositive_witness :
  (0 <= 0 \/ 365 <= 0) /\
  fst (@generate_data lcg 0 365 (7 : @rng lcg)) = Raised ValueError.
Proof.
  split; [left; lia |].
  apply (generate_data_rejects_nonpositive lcg 0 365 7). left. lia.
Defined.

Lemma DataFrame_returns {numpy : RandomState} {A : Type}
  (n : nat) (lens : list nat) (rows : list A) (s : rng) :
  Forall (eq n) lens -> DataFrame lens rows s = (Returned rows, s).
Proof.
  intros H. unfold DataFrame. destruct lens as [| m lens]; [reflexivity |].
  apply Forall_cons_iff in H. destruct H as (<- & H'). unfold same_length.
  replace (forallb (Nat.eqb n) lens) with true; [reflexivity |].
  symmetry. apply forallb_forall. rewrite Forall_forall in H'.
  intros x Hx. rewrite <- (H' x Hx). apply Nat.eqb_refl.
Qed.

Ltac frame k :=
  match goal with
  | |- context [bind (DataFrame ?l ?r) _ ?st] =>
      let H := fresh in
      assert (H : Forall (eq k) l)
        by (repeat (constructor; [symmetry; assumption |]); constructor);
      returned (DataFrame_returns k l r st H); clear H
  end.

(** X13.  With positive arguments the call returns four tables of the
    sizes the code fixes: n_players * max_days, 12000, n_players * 8 and
    4000 rows. *)
Lemma generate_data_returns (numpy : RandomState) (n_players max_days : Z) (s : rng) :
  0 < n_players -> 0 < max_days ->
  exists (t : tables) (s' : rng),
    generate_data n_players max_days s = (Returned t, s') /\
    len (activity t) = Z.to_nat (n_players * max_days) /\
    len (mining t) = Z.to_nat 12000 /\
    len (economy t) = Z.to_nat (n_players * 8) /\
    len (deaths t) = Z.to_nat 4000.
Proof.
  intros Hn Hd. unfold generate_data.
  returned (eq_refl : np_random_seed 42 s = (Returned tt, seed 42)).
  cbv zeta.
  set (players := map (fun i => ("Player_" ++ str i)%string) (range 1 (n_players + 1))).
  assert (Hp : players <> []).
  { unfold players. intros E. apply map_eq_nil in E. revert E. apply range_nonempty. lia. }
  assert (Hnd : 0 <= n_players * max_days) by nia.
  assert (Hn8 : 0 <= n_players * 8) by lia.
  assert (H12 : 0 <= 12000) by lia.
  assert (H4 : 0 <= 4000) by lia.
  assert (Hr : 1 < max_days + 1) by lia.
  pose proof (fun (A : Type) (a : list A) (H : a <> []) z (Hz : 0 <= z) p s =>
                choice_valid a z p s Hz H) as CH.
  assert (Hst : styles <> []) by discriminate.
  assert (Hmo : modes <> []) by discriminate.
  assert (Hre : resources <> []) by discriminate.
  assert (Hbi : biomes <> []) by discriminate.
  assert (Hdc : death_causes <> []) by discriminate.
  assert (Hbo : [true; false] <> []) by discriminate.
  (* activity *)
  destruct (randint_valid 1 (max_days + 1) _ (seed 42) Hnd Hr) as (c1 & s1 & E1 & L1).
  returned E1.
  destruct (CH _ players Hp _ Hnd None s1) as (c2 & s2 & E2 & L2). returned E2.
  destruct (gamma_valid (22 # 10) (18 # 10) _ s2 Hnd) as (c3 & s3 & E3 & L3). returned E3.
  destruct (CH _ styles Hst _ Hnd None s3) as (c4 & s4 & E4 & L4). returned E4.
  destruct (CH _ modes Hmo _ Hnd (Some [55 # 100; 25 # 100; 20 # 100]%Q) s4)
    as (c5 & s5 & E5 & L5). returned E5.
  frame (Z.to_nat (n_players * max_days)).
  (* mining *)
  destruct (randint_valid 1 (max_days + 1) _ s5 H12 Hr) as (m1 & t1 & F1 & M1). returned F1.
  destruct (CH _ players Hp _ H12 None t1) as (m2 & t2 & F2 & M2). returned F2.
  destruct (CH _ resources Hre _ H12
              (Some [8 # 100; 32 # 100; 18 # 100; 22 # 100; 20 # 100]%Q) t2)
    as (m3 & t3 & F3 & M3). returned F3.
  destruct (randint_valid (-64) 128 _ t3 H12 ltac:(lia)) as (m4 & t4 & F4 & M4). returned F4.
  destruct (CH _ biomes Hbi _ H12 None t4) as (m5 & t5 & F5 & M5). returned F5.
  destruct (CH _ modes Hmo _ H12 (Some [55 # 100; 25 # 100; 20 # 100]%Q) t5)
    as (m6 & t6 & F6 & M6). returned F6.
  frame (Z.to_nat 12000).
  (* economy *)
  destruct (randint_valid 1 (max_days + 1) _ t6 Hn8 Hr) as (e1 & u1 & G1 & N1). returned G1.
  destruct (CH _ players Hp _ Hn8 None u1) as (e2 & u2 & G2 & N2). returned G2.
  destruct (lognormal_valid (32 # 10) (9 # 10) _ u2 Hn8) as (e3 & u3 & G3 & N3). returned G3.
  destruct (CH _ modes Hmo _ Hn8 None u3) as (e4 & u4 & G4 & N4). returned G4.
  destruct (CH _ [true; false] Hbo _ Hn8 (Some [12 # 100; 88 # 100]%Q) u4)
    as (e5 & u5 & G5 & N5). returned G5.
  frame (Z.to_nat (n_players * 8)).
  (* deaths *)
  destruct (randint_valid 1 (max_days + 1) _ u5 H4 Hr) as (d1 & v1 & K1 & P1). returned K1.
  destruct (CH _ players Hp _ H4 None v1) as (d2 & v2 & K2 & P2). returned K2.
  destruct (CH _ death_causes Hdc _ H4 None v2) as (d3 & v3 & K3 & P3). returned K3.
  destruct (CH _ modes Hmo _ H4 None v3) as (d4 & v4 & K4 & P4). returned K4.
  frame (Z.to_nat 4000).
  eexists. eexists. split; [reflexivity |].
  unfold len in *. cbn [activity mining economy deaths].
  rewrite !length_map, !length_combine.
  rewrite L1, L2, L3, L4, L5, M1, M2, M3, M4, M5, M6, N1, N2, N3, N4, N5, P1, P2, P3, P4.
  rewrite !Nat.min_id. repeat split.
Qed.

(** The player names for two players. *)
Example players_of_two :
  map (fun i => ("Player_" ++ str i)%string) (range 1 (2 + 1)) = ["Player_1"; "Player_2"].
Proof. reflexivity. Qed.

(** * Further properties of the pipeline *)

(** ** Sums of float columns *)

Lemma fold_left_Qplus_acc (l : list Q) (a : Q) :
  (fold_left Qplus l a == a + fold_left Qplus l 0)%Q.
Proof.
  revert a. induction l as [| x l IH]; intros a; simpl.
  - ring.
  - rewrite (IH (a + x)%Q), (IH (0 + x)%Q). ring.
Qed.

Lemma sum_cons (x : Q) (l : list Q) : (sum (x :: l) == x + sum l)%Q.
Proof. unfold sum. simpl. rewrite fold_left_Qplus_acc. ring. Qed.

Lemma sum_nil : sum [] = 0%Q.
Proof. reflexivity. Qed.

Lemma sum_perm (l l' : list Q) : Permutation l l' -> (sum l == sum l')%Q.
Proof.
  induction 1 as [| x l l' _ IH | x y l | l l' l'' _ IH1 _ IH2].
  - reflexivity.
  - now rewrite !sum_cons, IH.
  - rewrite !sum_cons. ring.
  - now rewrite IH1.
Qed.

(** ** Groups partition the rows *)

Section Partition.

Context {K R : Type} (key : R -> K) (sel : K -> R -> bool).
Hypothesis sel_spec : forall k r, sel k r = true <-> key r = k.

Lemma sel_absent (r : R) (ks : list K) :
  ~ In (key r) ks -> forall k, In k ks -> sel k r = false.
Proof.
  intros H k Hk. destruct (sel k r) eqn:E; [| reflexivity].
  apply sel_spec in E. subst k. contradiction.
Qed.

Lemma count_indicator (r : R) (ks : list K) :
  NoDup ks -> In (key r) ks ->
  list_sum (map (fun k => if sel k r then 1 else 0)%nat ks) = 1%nat.
Proof.
  induction 1 as [| k ks Hk Hnd IH]; intros Hin; [contradiction |]. simpl.
  destruct (sel k r) eqn:E.
  - apply sel_spec in E. subst k. f_equal.
    clear IH Hin. induction ks as [| k ks IH]; [reflexivity |]. simpl.
    rewrite (sel_absent r (k :: ks) Hk k (or_introl eq_refl)). simpl. apply IH.
    + intros H. apply Hk. now right.
    + now inversion Hnd.
  - destruct Hin as [-> | Hin]; [| now apply IH].
    rewrite (proj2 (sel_spec (key r) r) eq_refl) in E. discriminate.
Qed.

Lemma list_sum_map_plus {A : Type} (f g : A -> nat) (l : list A) :
  list_sum (map (fun x => f x + g x)%nat l) = (list_sum (map f l) + list_sum (map g l))%nat.
Proof. induction l as [| x l IH]; simpl; [reflexivity | rewrite IH; lia]. Qed.

(** The group sizes add up to the number of rows. *)
Lemma length_partition (rows : list R) (ks : list K) :
  NoDup ks -> (forall r, In r rows -> In (key r) ks) ->
  list_sum (map (fun k => List.length (filter (sel k) rows)) ks) = List.length rows.
Proof.
  intros Hnd. induction rows as [| r rows IH]; intros Hcov.
  - simpl. clear. induction ks as [| k ks IHk]; [reflexivity | exact IHk].
  - rewrite (map_ext _ (fun k => (if sel k r then 1 else 0)
                                 + List.length (filter (sel k) rows))%nat).
    + rewrite list_sum_map_plus, count_indicator, IH; [reflexivity | | assumption |].
      * intros x Hx. apply Hcov. now right.
      * apply Hcov. now left.
    + intros k. simpl. now destruct (sel k r).
Qed.

End Partition.

(** ** groupby: keys and entries *)

Section GroupByFacts.

Context {K : Type} (eqb leb : K -> K -> bool).
Hypothesis eqb_spec : forall x y, eqb x y = true <-> x = y.
Hypothesis leb_total : forall x y, leb x y = true \/ leb y x = true.

Lemma seen_spec (x : K) (seen : list K) : existsb (eqb x) seen = true <-> In x seen.
Proof.
  rewrite existsb_exists. split.
  - intros (y & Hy & E). apply eqb_spec in E. now subst.
  - intros Hx. exists x. split; [assumption | now apply eqb_spec].
Qed.

Lemma unique_keys_sound (l seen : list K) (x : K) :
  In x (unique_keys eqb l seen) -> In x l /\ ~ In x seen.
Proof.
  revert seen. induction l as [| y l IH]; intros seen Hx; [contradiction |].
  simpl in Hx. destruct (existsb (eqb y) seen) eqn:E.
  - destruct (IH _ Hx). split; [now right | assumption].
  - destruct Hx as [<- | Hx].
    + split; [now left |]. intros Hin. apply seen_spec in Hin. congruence.
    + destruct (IH _ Hx) as (H1 & H2). split; [now right |].
      intros Hin. apply H2. now right.
Qed.

Lemma unique_keys_complete (l seen : list K) (x : K) :
  In x l -> In x seen \/ In x (unique_keys eqb l seen).
Proof.
  revert seen. induction l as [| y l IH]; intros seen Hx; [contradiction |].
  simpl. destruct Hx as [-> | Hx].
  - destruct (existsb (eqb x) seen) eqn:E.
    + left. now apply seen_spec.
    + right. now left.
  - destruct (existsb (eqb y) seen) eqn:E.
    + now apply IH.
    + destruct (IH (y :: seen) Hx) as [[-> | H] | H]; [right; now left | now left |].
      right. now right.
Qed.

Lemma unique_keys_NoDup (l seen : list K) : NoDup (unique_keys eqb l seen).
Proof.
  revert seen. induction l as [| y l IH]; intros seen; simpl; [constructor |].
  destruct (existsb (eqb y) seen); [apply IH |].
  constructor; [| apply IH].
  intros Hin. apply unique_keys_sound in Hin. apply (proj2 Hin). now left.
Qed.

Lemma insert_key_perm (x : K) (l : list K) : Permutation (insert_key leb x l) (x :: l).
Proof.
  induction l as [| y l IH]; simpl; [reflexivity |].
  destruct (leb x y); [reflexivity |]. rewrite IH. apply perm_swap.
Qed.

Lemma sort_keys_perm (l : list K) : Permutation (sort_keys leb l) l.
Proof.
  induction l as [| x l IH]; simpl; [reflexivity |].
  rewrite insert_key_perm. now constructor.
Qed.

Lemma insert_key_Sorted (x : K) (l : list K) :
  Sorted (fun a b => leb a b = true) l ->
  Sorted (fun a b => leb a b = true) (insert_key leb x l).
Proof.
  induction l as [| y l IH]; intros Hs; simpl.
  - repeat constructor.
  - destruct (leb x y) eqn:E.
    + constructor; [assumption | now constructor].
    + inversion Hs as [| ? ? Hs' Hhd]; subst. constructor; [now apply IH |].
      assert (Hyx : leb y x = true) by (destruct (leb_total x y); congruence).
      destruct l as [| z l]; simpl.
      * now constructor.
      * destruct (leb x z); constructor; [assumption | now inversion Hhd].
Qed.

Lemma sort_keys_Sorted (l : list K) : Sorted (fun a b => leb a b = true) (sort_keys leb l).
Proof.
  induction l as [| x l IH]; simpl; [constructor |]. now apply insert_key_Sorted.
Qed.

Lemma group_keys_NoDup (col : list K) : NoDup (sort_keys leb (unique_keys eqb col [])).
Proof.
  apply (Permutation_NoDup (l := unique_keys eqb col [])).
  - symmetry. apply sort_keys_perm.
  - apply unique_keys_NoDup.
Qed.

Lemma group_keys_In (col : list K) (k : K) :
  In k (sort_keys leb (unique_keys eqb col [])) <-> In k col.
Proof.
  split.
  - intros H. apply (Permutation_in _ (sort_keys_perm _)) in H.
    now apply unique_keys_sound in H.
  - intros H. apply (Permutation_in _ (Permutation_sym (sort_keys_perm _))).
    destruct (unique_keys_complete col [] k H) as [[] | H']. exact H'.
Qed.

Lemma groupby_keys {V A : Type} (agg : list V -> A) (rows : list (K * V)) :
  map fst (groupby eqb leb agg rows) = sort_keys leb (unique_keys eqb (map fst rows) []).
Proof. unfold groupby. rewrite map_map. simpl. apply map_id. Qed.

Lemma groupby_In {V A : Type} (agg : list V -> A) (rows : list (K * V)) (k : K) (a : A) :
  In (k, a) (groupby eqb leb agg rows) <->
  In k (map fst rows) /\
  a = agg (map snd (filter (fun kv => eqb (fst kv) k) rows)).
Proof.
  unfold groupby. rewrite in_map_iff. split.
  - intros (k' & E & Hk). inversion E; subst. split; [| reflexivity].
    exact (proj1 (group_keys_In _ _) Hk).
  - intros (Hk & ->). exists k. split; [reflexivity |].
    exact (proj2 (group_keys_In _ _) Hk).
Qed.

Lemma groupby_length {V A : Type} (agg : list V -> A) (rows : list (K * V)) :
  List.length (groupby eqb leb agg rows)
  = List.length (unique_keys eqb (map fst rows) []).
Proof.
  rewrite <- (length_map fst), groupby_keys. apply Permutation_length, sort_keys_perm.
Qed.

End GroupByFacts.

Lemma pair_eqb_spec (a b : string * string) : pair_eqb a b = true <-> a = b.
Proof.
  unfold pair_eqb. rewrite andb_true_iff, !String.eqb_eq.
  destruct a, b; simpl. split; [intros (-> & ->); reflexivity | intros E; now inversion E].
Qed.

Lemma pair_leb_total (a b : string * string) : pair_leb a b = true \/ pair_leb b a = true.
Proof.
  unfold pair_leb. rewrite (String.compare_antisym (fst b) (fst a)).
  destruct (String.compare (fst a) (fst b)); simpl; auto. apply String.leb_total.
Qed.

Lemma Zleb_total (x y : Z) : (x <=? y) = true \/ (y <=? x) = true.
Proof. rewrite !Z.leb_le. lia. Qed.

Lemma groupby_sum_is_groupby (rows : list (string * Q)) :
  groupby_sum rows = groupby String.eqb String.leb sum rows.
Proof. reflexivity. Qed.

(** ** More on the filter block *)

Lemma economy_keep_spec (p : params) (r : Economy.row) :
  economy_keep p r = true <-> economy_keeps p r.
Proof.
  unfold economy_keep, economy_keeps.
  rewrite !andb_true_iff, between_spec, String.eqb_eq.
  destruct (honest_only p).
  - rewrite negb_true_iff. intuition.
  - intuition discriminate.
Qed.

(** X1.  The Economy filter (lines 112-118) keeps exactly the records
    whose day lies in the inclusive range and whose mode is the selected
    one and, when honest_only is set, that are not flagged as cheaters;
    order and repetitions are kept. *)
Theorem economy_filter_exact :
  forall (p : params) (raw : list Economy.row),
    (forall r, In r (economy_f p raw) <-> In r raw /\ economy_keeps p r) /\
    (exists keep : Economy.row -> bool,
        (forall r, keep r = true <-> economy_keeps p r) /\
        economy_f p raw = filter keep raw).
Proof.
  intros p raw. split.
  - intros r. rewrite economy_f_filter, filter_In, economy_keep_spec. tauto.
  - exists (economy_keep p). split.
    + intros r. apply economy_keep_spec.
    + apply economy_f_filter.
Qed.

(** X2.  The Deaths filter (lines 120-123) keeps exactly the records whose
    day lies in the inclusive range and whose mode is the selected one;
    neither flag, nor the biome and resource selections, touch it. *)
Theorem deaths_filter_exact :
  forall (p : params) (raw : list Deaths.row),
    (forall r, In r (deaths_f p raw) <->
               In r raw /\
               fst (day_range p) <= Deaths.day r <= snd (day_range p) /\
               Deaths.mode r = mode p) /\
    (forall (biomes' resources' : list string) (active' honest' : bool),
        deaths_f {| mode := mode p; day_range := day_range p;
                    selected_biomes := biomes'; selected_resources := resources';
                    active_only := active'; honest_only := honest' |} raw
        = deaths_f p raw).
Proof.
  intros p raw. split.
  - intros r. unfold deaths_f.
    rewrite filter_In, andb_true_iff, between_spec, String.eqb_eq. tauto.
  - reflexivity.
Qed.

Lemma filter_implied {A : Type} (f g : A -> bool) (l : list A) :
  (forall x, g x = true -> f x = true) -> filter g (filter f l) = filter g l.
Proof.
  intros H. rewrite filter_and. apply filter_ext_in'. intros x _.
  destruct (g x) eqn:E; [now rewrite (H x E) | apply andb_false_r].
Qed.

Lemma filter_comm {A : Type} (f g : A -> bool) (l : list A) :
  filter g (filter f l) = filter f (filter g l).
Proof.
  rewrite !filter_and. apply filter_ext_in'. intros x _. apply andb_comm.
Qed.

Lemma isin_incl (small big : list string) (x : string) :
  incl small big -> isin small x = true -> isin big x = true.
Proof. intros H E. apply isin_spec. apply H. now apply isin_spec. Qed.

(** X3.  Filters compose by narrowing: when [q] selects no more than [p]
    (same mode, day range inside, biome and resource selections inside,
    no box unchecked), filtering the tables already filtered by [p] with
    [q] gives what filtering the raw tables with [q] gives. *)
Theorem global_filtering_narrowing :
  forall (p q : params) (raw : tables),
    narrows q p ->
    obind (global_filtering p raw) (global_filtering q) = global_filtering q raw.
Proof.
  intros p q raw (Hm & Hlo & Hhi & Hb & Hr & Ha & Hh).
  unfold global_filtering, obind. cbn [activity mining economy deaths].
  assert (Hbt : forall x, between (fst (day_range q)) (snd (day_range q)) x = true ->
                          between (fst (day_range p)) (snd (day_range p)) x = true).
  { intros x E. apply between_spec in E. apply between_spec. lia. }
  f_equal. f_equal.
  - rewrite !activity_f_filter. apply filter_implied. intros r E.
    apply activity_keep_spec in E. apply activity_keep_spec.
    destruct E as (E1 & E2 & E3). repeat split; try lia; [congruence |].
    intros Hp. apply E3. now apply Ha.
  - unfold mining_f. apply filter_implied. intros r E.
    rewrite !andb_true_iff in E. destruct E as (((E1 & E2) & E3) & E4).
    rewrite (Hbt _ E1), <- Hm, E2, (isin_incl _ _ _ Hb E3), (isin_incl _ _ _ Hr E4).
    reflexivity.
  - rewrite !economy_f_filter. apply filter_implied. intros r E.
    apply economy_keep_spec in E. apply economy_keep_spec.
    destruct E as (E1 & E2 & E3). repeat split; try lia; [congruence |].
    intros Hp. apply E3. now apply Hh.
  - unfold deaths_f. apply filter_implied. intros r E.
    rewrite andb_true_iff in E. destruct E as (E1 & E2).
    now rewrite (Hbt _ E1), <- Hm, E2.
Qed.

Lemma global_filtering_narrowing_witness :
  narrows narrow_params sample_params /\
  obind (global_filtering sample_params sample_raw) (global_filtering narrow_params)
  = global_filtering narrow_params sample_raw.
Proof.
  assert (N : narrows narrow_params sample_params).
  { unfold narrows, narrow_params, sample_params; simpl.
    repeat split; try lia; try reflexivity; intros x [<- | []]; simpl; tauto. }
  split; [exact N |].
  exact (global_filtering_narrowing sample_params narrow_params sample_raw N).
Defined.

(** X4.  Two filter passes commute: filtering by [p] and then by [q]
    gives the same four tables as filtering by [q] and then by [p]. *)
Theorem global_filtering_commutes :
  forall (p q : params) (raw : tables),
    obind (global_filtering p raw) (global_filtering q)
    = obind (global_filtering q raw) (global_filtering p).
Proof.
  intros p q raw. unfold global_filtering, obind. cbn [activity mining economy deaths].
  f_equal. f_equal.
  - rewrite !activity_f_filter. apply filter_comm.
  - apply filter_comm.
  - rewrite !economy_f_filter. apply filter_comm.
  - apply filter_comm.
Qed.

(** ** The sidebar option lists *)

(** X5.  An option list of the sidebar, [sorted(col.unique())] (lines 80-90),
    holds exactly the values of the column, each once, in ascending
    order. *)
Theorem option_list_spec :
  forall col : list string,
    (forall x, In x (sorted (unique col [])) <-> In x col) /\
    NoDup (sorted (unique col [])) /\
    Sorted (fun a b => String.leb a b = true) (sorted (unique col [])).
Proof.
  intros col. split; [| split].
  - intros x. exact (group_keys_In String.eqb String.leb String.eqb_eq col x).
  - exact (group_keys_NoDup String.eqb String.leb String.eqb_eq col).
  - exact (sort_keys_Sorted String.leb String.leb_total (unique col [])).
Qed.

(** ** More on the KPI block *)

Lemma unique_length_le (l seen : list string) :
  (List.length (unique l seen) <= List.length l)%nat.
Proof.
  revert seen. induction l as [| x l IH]; intros seen; simpl; [lia |].
  destruct (isin seen x); simpl; [specialize (IH seen) | specialize (IH (x :: seen))]; lia.
Qed.

Lemma nunique_le_len (col : list string) : (nunique col <= len col)%nat.
Proof. apply unique_length_le. Qed.

Lemma nunique_cons_pos (x : string) (col : list string) : (1 <= nunique (x :: col))%nat.
Proof. unfold nunique. simpl. lia. Qed.

Lemma of_nat_not_zero (n : nat) : (1 <= n)%nat -> ~ (of_nat n == 0)%Q.
Proof.
  intros Hn E. apply Qeq_bool_iff in E. rewrite of_nat_nonzero in E by lia. discriminate.
Qed.

(** X6.  On a non-empty filtered Activity table the KPI block (lines
    142-156) reports between 1 and len(activity_f) players and takes the
    division branch of both guards: avg_playtime is the quotient
    total_playtime / unique_players, not the fallback 0, and chaos_index is
    the very value the Chaos tab computes at line 326; total_playtime is
    the sum of the hours_played column and mining_events and deaths_count
    are the row counts. *)
Theorem statistics_kpis_ratios :
  forall (sorter : SortValues) (r : Activity.row) (activity_f : list Activity.row)
         (mining_f : list Mining.row) (deaths_f : list Deaths.row),
  exists k : kpis,
    statistics_kpis (r :: activity_f) mining_f deaths_f = Returned k /\
    (1 <= unique_players k <= len (r :: activity_f))%nat /\
    total_playtime k = sum (map Activity.hours_played (r :: activity_f)) /\
    mining_events k = len mining_f /\
    deaths_count k = len deaths_f /\
    truediv (total_playtime k) (of_nat (unique_players k)) = Returned (avg_playtime k) /\
    tab5_chaos_index deaths_f (r :: activity_f) = Returned (chaos_index k).
Proof.
  intros sorter r a m d.
  set (u := nunique (map Activity.player (r :: a))).
  assert (Hu : (1 <= u)%nat) by apply nunique_cons_pos.
  assert (Hle : (u <= len (r :: a))%nat).
  { unfold u. etransitivity; [apply nunique_le_len |]. unfold len. now rewrite length_map. }
  unfold statistics_kpis, tab5_chaos_index, chaos_ratio. fold u.
  unfold statistics_avg_playtime, statistics_chaos_index.
  destruct (Nat.ltb_spec 0 u); [| lia].
  rewrite (Nat.max_l u 1) by lia.
  rewrite !truediv_of_nat by lia. cbn [obind].
  destruct (statistics_top_returns m Mining.biome) as (b & ->).
  destruct (statistics_top_returns m Mining.resource) as (res & ->).
  cbn [obind]. eexists. split; [reflexivity |].
  cbn [unique_players total_playtime avg_playtime mining_events deaths_count chaos_index].
  repeat split; assumption.
Qed.

(** ** value_counts and idxmax *)

Lemma value_counts_perm `{SortValues} (col : list string) :
  Permutation (value_counts col) (count_entries col).
Proof. apply sort_values_perm. Qed.

Lemma count_entries_In (col : list string) (v : string) (c : Q) :
  In (v, c) (count_entries col) <-> In v col /\ c = of_nat (count v col).
Proof.
  unfold count_entries. rewrite in_map_iff. split.
  - intros (w & E & Hw). inversion E; subst. split; [| reflexivity].
    now apply unique_sound in Hw.
  - intros (Hv & ->). exists v. split; [reflexivity |].
    destruct (unique_In col [] v Hv) as [[] | H]. exact H.
Qed.

Lemma count_pos (v : string) (col : list string) : In v col -> (1 <= count v col)%nat.
Proof.
  intros Hv. unfold count.
  assert (Hin : In v (filter (String.eqb v) col)).
  { apply filter_In. split; [assumption | apply String.eqb_refl]. }
  destruct (filter (String.eqb v) col); [contradiction | simpl; lia].
Qed.

Lemma count_absent (v : string) (col : list string) : ~ In v col -> count v col = 0%nat.
Proof.
  intros Hv. unfold count. rewrite filter_none; [reflexivity |].
  intros x Hx. apply String.eqb_neq. intros ->. contradiction.
Qed.

Lemma of_nat_le (a b : nat) : (of_nat a <= of_nat b)%Q <-> (a <= b)%nat.
Proof. unfold of_nat. rewrite <- Zle_Qle. lia. Qed.

Lemma sum_of_nat {A : Type} (f : A -> nat) (l : list A) :
  (sum (map (fun x => of_nat (f x)) l) == of_nat (list_sum (map f l)))%Q.
Proof.
  induction l as [| x l IH]; simpl; [reflexivity |].
  rewrite sum_cons, IH. unfold of_nat.
  rewrite Nat2Z.inj_add, inject_Z_plus. reflexivity.
Qed.

Lemma counts_add_up (col : list string) :
  list_sum (map (fun v => count v col) (unique col [])) = len col.
Proof.
  apply (length_partition (fun x : string => x) String.eqb).
  - intros k r. rewrite String.eqb_eq. split; congruence.
  - apply unique_NoDup.
  - intros r Hr. destruct (unique_In col [] r Hr) as [[] | H]. exact H.
Qed.

Lemma idxmax_best (e : string * Q) (l : Series) :
  let best := fold_left (fun best x => if Qgtb (snd x) (snd best) then x else best) l e in
  In best (e :: l) /\ Forall (fun x => (snd x <= snd best)%Q) (e :: l).
Proof.
  revert e. induction l as [| x l IH]; intros e; simpl.
  - split; [now left | repeat constructor; apply Qle_refl].
  - destruct (IH (if Qgtb (snd x) (snd e) then x else e)) as (Hin & Hall).
    apply Forall_cons_iff in Hall. destruct Hall as (Hhd & Htl).
    destruct (Qgtb (snd x) (snd e)) eqn:E.
    + apply Qgtb_spec in E. split.
      * destruct Hin as [<- | Hin]; [right; now left | right; now right].
      * constructor; [| constructor; assumption].
        eapply Qle_trans; [apply Qlt_le_weak; exact E | exact Hhd].
    + unfold Qgtb in E. apply negb_false_iff, Qle_bool_iff in E. split.
      * destruct Hin as [<- | Hin]; [now left | right; now right].
      * constructor; [assumption | constructor; [| assumption]].
        eapply Qle_trans; eassumption.
Qed.

(** The label [idxmax] picks from the value counts of a non-empty column
    occurs in the column, and no value occurs more often. *)
Lemma most_frequent `{SortValues} (x : string) (col : list string) :
  exists v : string,
    idxmax (value_counts (x :: col)) = Returned v /\
    In v (x :: col) /\
    forall w : string, (count w (x :: col) <= count v (x :: col))%nat.
Proof.
  pose proof (value_counts_perm (x :: col)) as P.
  destruct (value_counts (x :: col)) as [| e s] eqn:E.
  - exfalso. exact (value_counts_nonempty x col E).
  - simpl. destruct (idxmax_best e s) as (Hin & Hall). cbv zeta in Hin, Hall.
    set (best := fold_left (fun best x => if Qgtb (snd x) (snd best) then x else best) s e)
      in *.
    exists (fst best). split; [reflexivity |].
    apply (Permutation_in _ P) in Hin. destruct best as [v c].
    apply count_entries_In in Hin. destruct Hin as (Hv & ->). simpl.
    split; [exact Hv |]. intros w.
    destruct (in_dec string_dec w (x :: col)) as [Hw | Hw].
    + assert (Hwe : In (w, of_nat (count w (x :: col))) (e :: s)).
      { apply (Permutation_in _ (Permutation_sym P)). apply count_entries_In. now split. }
      rewrite Forall_forall in Hall. specialize (Hall _ Hwe). simpl in Hall.
      now apply of_nat_le.
    + rewrite (count_absent w _ Hw). lia.
Qed.

(** X7.  On a non-empty filtered Mining table the KPI block (lines
    158-166) reports as top_biome a biome that occurs in the table and that
    no other biome outnumbers, and as top_resource such a resource;
    whichever way the sort orders equal counts. *)
Theorem statistics_top_is_most_frequent :
  forall (sorter : SortValues) (activity_f : list Activity.row) (r : Mining.row)
         (mining_f : list Mining.row) (deaths_f : list Deaths.row),
  exists k : kpis,
    statistics_kpis activity_f (r :: mining_f) deaths_f = Returned k /\
    In (top_biome k) (map Mining.biome (r :: mining_f)) /\
    (forall b, (count b (map Mining.biome (r :: mining_f))
                <= count (top_biome k) (map Mining.biome (r :: mining_f)))%nat) /\
    In (top_resource k) (map Mining.resource (r :: mining_f)) /\
    (forall b, (count b (map Mining.resource (r :: mining_f))
                <= count (top_resource k) (map Mining.resource (r :: mining_f)))%nat).
Proof.
  intros sorter a r m d. unfold statistics_kpis.
  destruct (statistics_avg_playtime_returns (sum (map Activity.hours_played a))
              (nunique (map Activity.player a))) as (q1 & ->).
  destruct (statistics_chaos_index_returns (len d) (nunique (map Activity.player a)))
    as (q2 & ->).
  unfold statistics_top. cbn [empty negb map].
  destruct (most_frequent (Mining.biome r) (map Mining.biome m)) as (b & -> & Hb1 & Hb2).
  destruct (most_frequent (Mining.resource r) (map Mining.resource m))
    as (res & -> & Hr1 & Hr2).
  cbn [obind]. eexists. split; [reflexivity |].
  cbn [top_biome top_resource]. repeat split; assumption.
Qed.

(** X8.  The value-count tables behind the Biomes treemap (line 272) and
    the death-cause bars (line 313) hold one entry per value of the column,
    with its number of occurrences (at least 1), in non-increasing order of
    count; the counts add up to the number of filtered rows. *)
Theorem count_tables_spec :
  forall (sorter : SortValues) (mining_f : list Mining.row) (deaths_f : list Deaths.row),
    ((forall v c, In (v, c) (biome_size mining_f) <->
                  In v (map Mining.biome mining_f) /\
                  c = of_nat (count v (map Mining.biome mining_f))) /\
     NoDup (map fst (biome_size mining_f)) /\
     StronglySorted desc (biome_size mining_f) /\
     Forall (fun e => 1 <= snd e)%Q (biome_size mining_f) /\
     (sum (map snd (biome_size mining_f)) == of_nat (len mining_f))%Q) /\
    ((forall v c, In (v, c) (causes deaths_f) <->
                  In v (map Deaths.cause deaths_f) /\
                  c = of_nat (count v (map Deaths.cause deaths_f))) /\
     NoDup (map fst (causes deaths_f)) /\
     StronglySorted desc (causes deaths_f) /\
     Forall (fun e => 1 <= snd e)%Q (causes deaths_f) /\
     (sum (map snd (causes deaths_f)) == of_nat (len deaths_f))%Q).
Proof.
  intros sorter m d.
  assert (G : forall col : list string,
             (forall v c, In (v, c) (value_counts col) <->
                          In v col /\ c = of_nat (count v col)) /\
             NoDup (map fst (value_counts col)) /\
             StronglySorted desc (value_counts col) /\
             Forall (fun e => 1 <= snd e)%Q (value_counts col) /\
             (sum (map snd (value_counts col)) == of_nat (len col))%Q).
  { intros col. pose proof (value_counts_perm col) as P.
    split; [| split; [| split; [| split]]].
    - intros v c. rewrite <- count_entries_In. split; apply Permutation_in.
      + exact P.
      + now symmetry.
    - apply (Permutation_NoDup (l := map fst (count_entries col))).
      + symmetry. now apply Permutation_map.
      + unfold count_entries. rewrite map_map. simpl. rewrite map_id.
        apply unique_NoDup.
    - apply sort_values_sorted.
    - apply Forall_forall. intros [v c] Hin.
      apply (Permutation_in _ P), count_entries_In in Hin. destruct Hin as (Hv & ->).
      simpl. change 1%Q with (of_nat 1). apply of_nat_le. now apply count_pos.
    - rewrite (sum_perm _ _ (Permutation_map snd P)).
      unfold count_entries. rewrite map_map. simpl.
      rewrite (sum_of_nat (fun v => count v col)), counts_add_up. reflexivity. }
  split.
  - destruct (G (map Mining.biome m)) as (G1 & G2 & G3 & G4 & G5).
    unfold biome_size. split; [exact G1 |]. split; [exact G2 |]. split; [exact G3 |].
    split; [exact G4 |]. rewrite G5. unfold len. now rewrite length_map.
  - destruct (G (map Deaths.cause d)) as (G1 & G2 & G3 & G4 & G5).
    unfold causes. split; [exact G1 |]. split; [exact G2 |]. split; [exact G3 |].
    split; [exact G4 |]. rewrite G5. unfold len. now rewrite length_map.
Qed.

(** ** The grouped chart tables *)

Lemma group_rows {K R V : Type} (eqb : K -> K -> bool) (key : R -> K) (val : R -> V)
  (k : K) (rows : list R) :
  map snd (filter (fun kv => eqb (fst kv) k) (map (fun r => (key r, val r)) rows))
  = map val (filter (fun r => eqb (key r) k) rows).
Proof.
  induction rows as [| r rows IH]; simpl; [reflexivity |].
  destruct (eqb (key r) k); simpl; now rewrite IH.
Qed.

Section GroupTotals.

Context {K : Type} (eqb leb : K -> K -> bool).
Hypothesis eqb_spec : forall x y, eqb x y = true <-> x = y.

Lemma groupby_len_total {V : Type} (rows : list (K * V)) :
  list_sum (map snd (groupby eqb leb (@len V) rows)) = len rows.
Proof.
  unfold groupby. rewrite map_map. simpl.
  rewrite (map_ext _ (fun k => List.length (filter (fun kv => eqb (fst kv) k) rows))).
  - apply (length_partition fst (fun k kv => eqb (fst kv) k)).
    + intros k r. apply eqb_spec.
    + now apply group_keys_NoDup.
    + intros r Hr. apply (group_keys_In eqb leb eqb_spec). now apply in_map.
  - intros k. unfold len. apply length_map.
Qed.

End GroupTotals.

Lemma ascending_days (l : list Z) :
  Sorted (fun a b => (a <=? b) = true) l -> NoDup l -> StronglySorted Z.lt l.
Proof.
  intros Hs Hnd. apply Sorted_StronglySorted in Hs.
  - induction Hs as [| a l Hs IH Hall]; [constructor |].
    inversion Hnd as [| ? ? Hnotin Hnd']; subst. constructor; [now apply IH |].
    rewrite Forall_forall in *. intros b Hb. specialize (Hall b Hb).
    apply Z.leb_le in Hall. assert (a <> b) by (intros ->; contradiction). lia.
  - intros a b c Hab Hbc. apply Z.leb_le in Hab, Hbc. apply Z.leb_le. lia.
Qed.

(** X9.  The daily series (line 216) has one entry per day that occurs in
    the filtered Activity table, carrying the sum of that day's
    hours_played, in strictly ascending day order. *)
Theorem daily_spec :
  forall activity_f : list Activity.row,
    (forall d v, In (d, v) (daily activity_f) <->
                 In d (map Activity.day activity_f) /\
                 v = sum (map Activity.hours_played
                              (filter (fun r => Activity.day r =? d) activity_f))) /\
    StronglySorted Z.lt (map fst (daily activity_f)).
Proof.
  intros a. unfold daily. split.
  - intros d v. rewrite (groupby_In Z.eqb Z.leb Z.eqb_eq).
    rewrite group_rows, map_map. simpl. reflexivity.
  - rewrite (groupby_keys Z.eqb Z.leb). apply ascending_days.
    + apply (sort_keys_Sorted Z.leb Zleb_total).
    + apply (group_keys_NoDup Z.eqb Z.leb Z.eqb_eq).
Qed.

(** X10.  The biome-by-resource table (line 257) has one row per
    (biome, resource) combination that occurs in the filtered Mining table,
    with the number of rows of that combination (at least 1); the counts
    add up to the number of filtered Mining rows. *)
Theorem biome_res_spec :
  forall mining_f : list Mining.row,
    (forall b r n,
        In ((b, r), n) (biome_res mining_f) <->
        In (b, r) (map (fun x => (Mining.biome x, Mining.resource x)) mining_f) /\
        n = len (filter (fun x => (Mining.biome x =? b)%string
                                  && (Mining.resource x =? r)%string) mining_f)) /\
    NoDup (map fst (biome_res mining_f)) /\
    Forall (fun e => 1 <= snd e)%nat (biome_res mining_f) /\
    list_sum (map snd (biome_res mining_f)) = len mining_f.
Proof.
  intros m. unfold biome_res.
  assert (E : forall b r n,
             In ((b, r), n)
                (groupby pair_eqb pair_leb (@len Mining.row)
                   (map (fun x => ((Mining.biome x, Mining.resource x), x)) m)) <->
             In (b, r) (map (fun x => (Mining.biome x, Mining.resource x)) m) /\
             n = len (filter (fun x => (Mining.biome x =? b)%string
                                       && (Mining.resource x =? r)%string) m)).
  { intros b r n. rewrite (groupby_In pair_eqb pair_leb pair_eqb_spec).
    rewrite group_rows, map_map, map_id. simpl. reflexivity. }
  split; [exact E | split; [| split]].
  - rewrite (groupby_keys pair_eqb pair_leb).
    apply (group_keys_NoDup pair_eqb pair_leb pair_eqb_spec).
  - apply Forall_forall. intros [[b r] n] Hin. apply E in Hin.
    destruct Hin as (Hk & ->). simpl. apply in_map_iff in Hk.
    destruct Hk as (x & Hx & Hin). inversion Hx; subst.
    assert (H : In x (filter (fun y => (Mining.biome y =? Mining.biome x)%string
                                       && (Mining.resource y =? Mining.resource x)%string) m)).
    { apply filter_In. split; [assumption |]. now rewrite !String.eqb_refl. }
    unfold len. destruct (filter _ m); [contradiction | simpl; lia].
  - rewrite (groupby_len_total pair_eqb pair_leb pair_eqb_spec).
    unfold len. apply length_map.
Qed.

Lemma StronglySorted_app_inv {A : Type} (R : A -> A -> Prop) (l1 l2 : list A) :
  StronglySorted R (l1 ++ l2) -> forall a b, In a l1 -> In b l2 -> R a b.
Proof.
  induction l1 as [| x l1 IH]; intros Hs a b Ha Hb; [contradiction |].
  simpl in Hs. inversion Hs as [| ? ? Hs' Hall]; subst.
  destruct Ha as [<- | Ha].
  - rewrite Forall_forall in Hall. apply Hall, in_or_app. now right.
  - now apply IH.
Qed.

(** The first [n] entries of a descending sort, and what they leave out. *)
Lemma head_of_sort `{SortValues} (n : nat) (s : Series) :
  exists rest : Series,
    Permutation (head n (sort_values_desc s) ++ rest) s /\
    (forall a b, In a (head n (sort_values_desc s)) -> In b rest -> (snd b <= snd a)%Q) /\
    StronglySorted desc (head n (sort_values_desc s)) /\
    len (head n (sort_values_desc s)) = Nat.min n (len s).
Proof.
  exists (skipn n (sort_values_desc s)). unfold head.
  pose proof (sort_values_sorted s) as Hs. pose proof (sort_values_perm s) as P.
  split; [| split; [| split]].
  - now rewrite firstn_skipn.
  - intros a b Ha Hb. rewrite <- (firstn_skipn n (sort_values_desc s)) in Hs.
    exact (StronglySorted_app_inv _ _ _ Hs a b Ha Hb).
  - now apply StronglySorted_firstn.
  - unfold len. now rewrite length_firstn, (Permutation_length P).
Qed.

Lemma wealth_length (economy_f : list Economy.row) :
  len (wealth economy_f) = nunique (map Economy.player economy_f).
Proof.
  unfold wealth, len, nunique. rewrite groupby_sum_is_groupby.
  rewrite (groupby_length String.eqb String.leb), map_map. reflexivity.
Qed.

(** X11.  The wealth table (line 287) has one entry per player of the
    filtered Economy table, carrying the sum of that player's balances.
    The richest table (line 298) is the first min(15, number of players)
    entries of a descending rearrangement of it: what it lists is in
    non-increasing order, and no player it leaves out has a larger wealth
    than one it lists. *)
Theorem wealth_and_richest_spec :
  forall (sorter : SortValues) (economy_f : list Economy.row),
    (forall p v, In (p, v) (wealth economy_f) <->
                 In p (map Economy.player economy_f) /\
                 v = sum (map Economy.balance
                              (filter (fun r => (Economy.player r =? p)%string) economy_f))) /\
    NoDup (map fst (wealth economy_f)) /\
    (exists rest : Series,
        Permutation (richest economy_f ++ rest) (wealth economy_f) /\
        (forall a b, In a (richest economy_f) -> In b rest -> (snd b <= snd a)%Q) /\
        StronglySorted desc (richest economy_f) /\
        len (richest economy_f) = Nat.min 15 (nunique (map Economy.player economy_f))).
Proof.
  intros sorter e. split; [| split].
  - intros p v. unfold wealth. rewrite groupby_sum_is_groupby.
    rewrite (groupby_In String.eqb String.leb String.eqb_eq).
    rewrite group_rows, map_map. simpl. reflexivity.
  - unfold wealth. rewrite groupby_sum_is_groupby, (groupby_keys String.eqb String.leb).
    apply (group_keys_NoDup String.eqb String.leb String.eqb_eq).
  - unfold richest. destruct (head_of_sort 15 (wealth e)) as (rest & H1 & H2 & H3 & H4).
    exists rest. rewrite <- wealth_length. now repeat split.
Qed.

(** X12.  The top-players table (lines 227-233) leaves out no player with
    more hours than one it lists: together with the entries it drops it is
    a rearrangement of the grouped totals, and every dropped total is at
    most every listed one. *)
Theorem top_players_complete :
  forall (sorter : SortValues) (activity_f : list Activity.row),
    exists rest : Series,
      Permutation (top_players activity_f ++ rest)
                  (groupby_sum (playtime_rows activity_f)) /\
      (forall a b, In a (top_players activity_f) -> In b rest -> (snd b <= snd a)%Q).
Proof.
  intros sorter a.
  destruct (head_of_sort 15 (groupby_sum (playtime_rows a))) as (rest & H1 & H2 & _).
  exists rest. split; assumption.
Qed.

(** ** More on the generator *)

Lemma generate_data_returns_witness :
  0 < 2 /\ 0 < 3 /\
  exists (t : tables) (s' : @rng lcg),
    @generate_data lcg 2 3 (0 : @rng lcg) = (Returned t, s') /\
    len (activity t) = Z.to_nat (2 * 3) /\
    len (mining t) = Z.to_nat 12000 /\
    len (economy t) = Z.to_nat (2 * 8) /\
    len (deaths t) = Z.to_nat 4000.
Proof.
  split; [lia |]. split; [lia |].
  apply (generate_data_returns lcg 2 3 0); lia.
Defined.

Section Columns.

Context {numpy : RandomState}.

Lemma fill_column {A : Type} (P : A -> Prop) (size : Z) (draw : rng -> A * rng) (s : rng) :
  (forall s0, P (fst (draw s0))) ->
  exists (xs : list A) (s' : rng),
    fill size draw s = (Returned xs, s') /\ len xs = Z.to_nat size /\ Forall P xs.
Proof.
  intros HP. unfold fill. generalize (Z.to_nat size) as n. intros n. revert s.
  induction n as [| n IH]; intros s; simpl.
  - exists [], s. repeat split. constructor.
  - pose proof (HP s) as Hx. destruct (draw s) as [x s1].
    destruct (IH s1) as (xs & s2 & E & L & F).
    destruct (draws n draw s1) as [ys s3]. injection E as -> ->.
    exists (x :: xs), s2. split; [reflexivity |]. split.
    + unfold len in *; simpl; now rewrite L.
    + now constructor.
Qed.

Lemma randint_column (low high size : Z) (s : rng) :
  0 <= size -> low < high ->
  exists xs s',
    randint low high size s = (Returned xs, s') /\ len xs = Z.to_nat size /\
    Forall (fun x => draw_int_in_range numpy -> low <= x < high) xs.
Proof.
  intros Hs Hr. unfold randint. destruct (Z.eqb_spec size 0) as [-> | Hnz].
  - exists [], s. repeat split. constructor.
  - destruct (Z.leb_spec high low); [lia |].
    destruct (Z.ltb_spec size 0); [lia |]. apply fill_column.
    intros s0 Hnp. now apply Hnp.
Qed.

Lemma choice_column {A : Type} (a : list A) (size : Z) (p : option (list Q)) (s : rng) :
  0 <= size -> a <> [] ->
  exists xs s',
    choice a size p s = (Returned xs, s') /\ len xs = Z.to_nat size /\
    Forall (fun x => In x a) xs.
Proof.
  intros Hs Ha. destruct a as [| a0 a]; [congruence |]. unfold choice.
  destruct (Z.ltb_spec size 0); [lia |]. apply fill_column.
  intros s0. destruct (draw_index (List.length (a0 :: a)) p s0) as [i s1]. cbn [fst].
  destruct (nth_in_or_default i (a0 :: a) a0) as [Hin | E]; [exact Hin |].
  rewrite E. now left.
Qed.

End Columns.

Lemma Forall_combine {A B : Type} (P : A -> Prop) (Q : B -> Prop) (a : list A) (b : list B) :
  Forall P a -> Forall Q b -> Forall (fun x => P (fst x) /\ Q (snd x)) (combine a b).
Proof.
  intros Ha. revert b. induction Ha as [| x a Hx Ha IH]; intros b Hb; [constructor |].
  destruct Hb as [| y b Hy Hb]; [constructor |]. simpl. constructor; [now split | now apply IH].
Qed.

Lemma Forall_True {A : Type} (l : list A) : Forall (fun _ => True) l.
Proof. apply Forall_forall. trivial. Qed.

Lemma generate_data_rows (numpy : RandomState) (n_players max_days : Z) (s : rng) :
  0 < n_players -> 0 < max_days ->
  exists (t : tables) (s' : rng),
    generate_data n_players max_days s = (Returned t, s') /\
    Forall (activity_row_ok numpy n_players max_days) (activity t) /\
    Forall (mining_row_ok numpy n_players max_days) (mining t) /\
    Forall (economy_row_ok numpy n_players max_days) (economy t) /\
    Forall (deaths_row_ok numpy n_players max_days) (deaths t).
Proof.
  intros Hn Hd. unfold generate_data.
  returned (eq_refl : np_random_seed 42 s = (Returned tt, seed 42)).
  cbv zeta. fold (players_of n_players).
  assert (Hp : players_of n_players <> []).
  { unfold players_of. intros E. apply map_eq_nil in E. revert E.
    apply range_nonempty. lia. }
  assert (Hnd : 0 <= n_players * max_days) by nia.
  assert (Hn8 : 0 <= n_players * 8) by lia.
  assert (H12 : 0 <= 12000) by lia.
  assert (H4 : 0 <= 4000) by lia.
  assert (Hr : 1 < max_days + 1) by lia.
  pose proof (fun (A : Type) (a : list A) (Hne : a <> []) z (Hz : 0 <= z) p s0 =>
                choice_column a z p s0 Hz Hne) as CH.
  assert (Hst : styles <> []) by discriminate.
  assert (Hmo : modes <> []) by discriminate.
  assert (Hre : resources <> []) by discriminate.
  assert (Hbi : biomes <> []) by discriminate.
  assert (Hdc : death_causes <> []) by discriminate.
  assert (Hbo : [true; false] <> []) by discriminate.
  destruct (randint_column 1 (max_days + 1) _ (seed 42) Hnd Hr) as (c1 & s1 & E1 & L1 & A1).
  returned E1.
  destruct (CH _ _ Hp _ Hnd None s1) as (c2 & s2 & E2 & L2 & A2). returned E2.
  destruct (gamma_valid (22 # 10) (18 # 10) _ s2 Hnd) as (c3 & s3 & E3 & L3). returned E3.
  destruct (CH _ styles Hst _ Hnd None s3) as (c4 & s4 & E4 & L4 & A4). returned E4.
  destruct (CH _ modes Hmo _ Hnd (Some [55 # 100; 25 # 100; 20 # 100]%Q) s4)
    as (c5 & s5 & E5 & L5 & A5). returned E5.
  frame (Z.to_nat (n_players * max_days)).
  destruct (randint_column 1 (max_days + 1) _ s5 H12 Hr) as (m1 & t1 & F1 & M1 & B1).
  returned F1.
  destruct (CH _ _ Hp _ H12 None t1) as (m2 & t2 & F2 & M2 & B2). returned F2.
  destruct (CH _ resources Hre _ H12
              (Some [8 # 100; 32 # 100; 18 # 100; 22 # 100; 20 # 100]%Q) t2)
    as (m3 & t3 & F3 & M3 & B3). returned F3.
  destruct (randint_column (-64) 128 _ t3 H12 ltac:(lia)) as (m4 & t4 & F4 & M4 & B4).
  returned F4.
  destruct (CH _ biomes Hbi _ H12 None t4) as (m5 & t5 & F5 & M5 & B5). returned F5.
  destruct (CH _ modes Hmo _ H12 (Some [55 # 100; 25 # 100; 20 # 100]%Q) t5)
    as (m6 & t6 & F6 & M6 & B6). returned F6.
  frame (Z.to_nat 12000).
  destruct (randint_column 1 (max_days + 1) _ t6 Hn8 Hr) as (e1 & u1 & G1 & N1 & C1).
  returned G1.
  destruct (CH _ _ Hp _ Hn8 None u1) as (e2 & u2 & G2 & N2 & C2). returned G2.
  destruct (lognormal_valid (32 # 10) (9 # 10) _ u2 Hn8) as (e3 & u3 & G3 & N3). returned G3.
  destruct (CH _ modes Hmo _ Hn8 None u3) as (e4 & u4 & G4 & N4 & C4). returned G4.
  destruct (CH _ [true; false] Hbo _ Hn8 (Some [12 # 100; 88 # 100]%Q) u4)
    as (e5 & u5 & G5 & N5 & C5). returned G5.
  frame (Z.to_nat (n_players * 8)).
  destruct (randint_column 1 (max_days + 1) _ u5 H4 Hr) as (d1 & v1 & K1 & P1 & D1).
  returned K1.
  destruct (CH _ _ Hp _ H4 None v1) as (d2 & v2 & K2 & P2 & D2). returned K2.
  destruct (CH _ death_causes Hdc _ H4 None v2) as (d3 & v3 & K3 & P3 & D3). returned K3.
  destruct (CH _ modes Hmo _ H4 None v3) as (d4 & v4 & K4 & P4 & D4). returned K4.
  frame (Z.to_nat 4000).
  eexists. eexists. split; [reflexivity |].
  cbn [activity mining economy deaths].
  split; [| split; [| split]]; apply Forall_map.
  - eapply Forall_impl;
      [| exact (Forall_combine _ _ _ _
                  (Forall_combine _ _ _ _
                     (Forall_combine _ _ _ _ (Forall_combine _ _ _ _ A1 A2) (Forall_True c3))
                     A4) A5)].
    intros [[[[dd pp] hh] st] mm]; unfold activity_row_ok; simpl. intuition lia.
  - eapply Forall_impl;
      [| exact (Forall_combine _ _ _ _
                  (Forall_combine _ _ _ _
                     (Forall_combine _ _ _ _
                        (Forall_combine _ _ _ _ (Forall_combine _ _ _ _ B1 B2) B3) B4)
                     B5) B6)].
    intros [[[[[dd pp] rr] yy] bb] mm]; unfold mining_row_ok; simpl. intuition lia.
  - eapply Forall_impl;
      [| exact (Forall_combine _ _ _ _
                  (Forall_combine _ _ _ _
                     (Forall_combine _ _ _ _ (Forall_combine _ _ _ _ C1 C2) (Forall_True e3))
                     C4) (Forall_True e5))].
    intros [[[[dd pp] bb] mm] cc]; unfold economy_row_ok; simpl. intuition lia.
  - eapply Forall_impl;
      [| exact (Forall_combine _ _ _ _
                  (Forall_combine _ _ _ _ (Forall_combine _ _ _ _ D1 D2) D3) D4)].
    intros [[[dd pp] cc] mm]; unfold deaths_row_ok; simpl. intuition lia.
Qed.

(** X14.  With positive arguments generate_data returns tables in which
    no record names a player outside the n_players generated identifiers,
    and every style, mode, resource, biome and death cause is one of the
    listed values (lines 23-60); whatever the sampler does. *)
Theorem generated_categories :
  forall (numpy : RandomState) (n_players max_days : Z) (s : rng),
    0 < n_players -> 0 < max_days ->
    exists (t : tables) (s' : rng),
      generate_data n_players max_days s = (Returned t, s') /\
      Forall (fun r => In (Activity.player r) (players_of n_players) /\
                       In (Activity.style r) styles /\ In (Activity.mode r) modes)
             (activity t) /\
      Forall (fun r => In (Mining.player r) (players_of n_players) /\
                       In (Mining.resource r) resources /\ In (Mining.biome r) biomes /\
                       In (Mining.mode r) modes)
             (mining t) /\
      Forall (fun r => In (Economy.player r) (players_of n_players) /\
                       In (Economy.mode r) modes)
             (economy t) /\
      Forall (fun r => In (Deaths.player r) (players_of n_players) /\
                       In (Deaths.cause r) death_causes /\ In (Deaths.mode r) modes)
             (deaths t).
Proof.
  intros numpy n d s Hn Hd.
  destruct (generate_data_rows numpy n d s Hn Hd) as (t & s' & E & A & M & Ec & D).
  exists t, s'. split; [exact E |].
  split; [| split; [| split]]; eapply Forall_impl; try eassumption.
  - unfold activity_row_ok. tauto.
  - unfold mining_row_ok. tauto.
  - unfold economy_row_ok. tauto.
  - unfold deaths_row_ok. tauto.
Qed.

Lemma generated_categories_witness :
  0 < 2 /\ 0 < 3 /\
  exists (t : tables) (s' : @rng lcg),
    @generate_data lcg 2 3 (0 : @rng lcg) = (Returned t, s') /\
    Forall (fun r => In (Activity.player r) (players_of 2) /\
                     In (Activity.style r) styles /\ In (Activity.mode r) modes)
           (activity t) /\
    Forall (fun r => In (Mining.player r) (players_of 2) /\
                     In (Mining.resource r) resources /\ In (Mining.biome r) biomes /\
                     In (Mining.mode r) modes)
           (mining t) /\
    Forall (fun r => In (Economy.player r) (players_of 2) /\ In (Economy.mode r) modes)
           (economy t) /\
    Forall (fun r => In (Deaths.player r) (players_of 2) /\
                     In (Deaths.cause r) death_causes /\ In (Deaths.mode r) modes)
           (deaths t).
Proof.
  split; [lia |]. split; [lia |].
  apply (generated_categories lcg 2 3 0); lia.
Defined.

(** X15.  When the sampler's bounded integer draw stays in its half-open
    range, as numpy's does, generate_data with positive arguments returns
    tables in which every day lies in 1..max_days and every y_level in
    -64..127 (lines 31, 39, 42, 48, 56). *)
Theorem generated_ranges :
  forall (numpy : RandomState) (n_players max_days : Z) (s : rng),
    draw_int_in_range numpy ->
    0 < n_players -> 0 < max_days ->
    exists (t : tables) (s' : rng),
      generate_data n_players max_days s = (Returned t, s') /\
      days_within max_days t /\
      Forall (fun r => -64 <= Mining.y_level r <= 127) (mining t).
Proof.
  intros numpy n d s Hnp Hn Hd.
  destruct (generate_data_rows numpy n d s Hn Hd) as (t & s' & E & A & M & Ec & D).
  exists t, s'. split; [exact E |]. unfold days_within.
  repeat split; eapply Forall_impl; try eassumption.
  - unfold activity_row_ok. intros r H. now apply H.
  - unfold mining_row_ok. intros r H. now apply H.
  - unfold economy_row_ok. intros r H. now apply H.
  - unfold deaths_row_ok. intros r H. now apply H.
  - unfold mining_row_ok. intros r H. now apply H.
Qed.

Lemma lcg_draw_int_in_range : draw_int_in_range lcg.
Proof.
  intros low high s H. simpl.
  pose proof (Z.mod_pos_bound s (high - low) ltac:(lia)). lia.
Qed.

Lemma generated_ranges_witness :
  draw_int_in_range lcg /\ 0 < 2 /\ 0 < 3 /\
  exists (t : tables) (s' : @rng lcg),
    @generate_data lcg 2 3 (0 : @rng lcg) = (Returned t, s') /\
    days_within 3 t /\
    Forall (fun r => -64 <= Mining.y_level r <= 127) (mining t).
Proof.
  split; [exact lcg_draw_int_in_range |]. split; [lia |]. split; [lia |].
  apply (generated_ranges lcg 2 3 0); [exact lcg_draw_int_in_range | lia | lia].
Defined.

(** ** The player identifiers *)

Lemma str_inj (i j : Z) : 0 < i -> 0 < j -> str i = str j -> i = j.
Proof.
  intros Hi Hj E. unfold str in E. apply DecimalZ.to_int_inj.
  assert (P : forall z, 0 < z ->
            NilZero.int_of_string (NilZero.string_of_int (Z.to_int z)) = Some (Z.to_int z)).
  { intros z Hz. destruct z as [| p | p]; try lia. apply NilZero.isi; simpl.
    - intros [= H]. exact (DecimalPos.Unsigned.to_uint_nonnil p H).
    - discriminate. }
  pose proof (P i Hi) as Pi. pose proof (P j Hj) as Pj. rewrite E in Pi. congruence.
Qed.

Lemma NoDup_map_in {A B : Type} (f : A -> B) (l : list A) :
  (forall x y, In x l -> In y l -> f x = f y -> x = y) -> NoDup l -> NoDup (map f l).
Proof.
  intros Hinj Hnd. induction Hnd as [| x l Hx Hnd IH]; simpl; constructor.
  - intros Hin. apply in_map_iff in Hin. destruct Hin as (y & E & Hy).
    assert (y = x) by (apply Hinj; [now right | now left | exact E]). subst. contradiction.
  - apply IH. intros a b Ha Hb. apply Hinj; now right.
Qed.

Lemma range_In (lo hi x : Z) : In x (range lo hi) <-> lo <= x < hi.
Proof.
  unfold range. rewrite in_map_iff. split.
  - intros (k & <- & Hk). apply in_seq in Hk. lia.
  - intros H. exists (Z.to_nat (x - lo)). split; [lia |]. apply in_seq. lia.
Qed.

Lemma range_NoDup (lo hi : Z) : NoDup (range lo hi).
Proof.
  unfold range. apply NoDup_map_in; [| apply seq_NoDup].
  intros a b _ _ E. lia.
Qed.

(** X16.  The player list of line 23 has n_players entries (none for a
    non-positive n_players), pairwise distinct, and they are exactly
    Player_1 ... Player_n in decimal. *)
Theorem players_of_spec :
  forall n_players : Z,
    len (players_of n_players) = Z.to_nat n_players /\
    NoDup (players_of n_players) /\
    (forall p, In p (players_of n_players) <->
               exists i, 1 <= i <= n_players /\ p = ("Player_" ++ str i)%string).
Proof.
  intros n. unfold players_of. split; [| split].
  - unfold len, range. rewrite !length_map, length_seq. f_equal. lia.
  - apply NoDup_map_in; [| apply range_NoDup].
    intros i j Hi Hj E. apply range_In in Hi, Hj. simpl in E.
    apply str_inj; [lia | lia |]. now inversion E.
  - intros p. rewrite in_map_iff. split.
    + intros (i & <- & Hi). apply range_In in Hi. exists i. split; [lia | reflexivity].
    + intros (i & Hi & ->). exists i. split; [reflexivity | apply range_In; lia].
Qed.

(** ** The dashboard on the generated tables *)

Lemma full_selection_mode_subset (p : params) (raw : tables) (max_days : Z) :
  days_within max_days raw ->
  day_range p = (1, max_days) ->
  (forall r, In r (mining raw) -> In (Mining.biome r) (selected_biomes p)) ->
  (forall r, In r (mining raw) -> In (Mining.resource r) (selected_resources p)) ->
  active_only p = false ->
  honest_only p = false ->
  global_filtering p raw = Returned (mode_subset (mode p) raw).
Proof.
  intros (Ha & Hm & He & Hd) Hr Hb Hres Hact Hhon.
  unfold global_filtering, mode_subset. f_equal.
  rewrite Forall_forall in Ha, Hm, He, Hd.
  unfold activity_f, mining_f, economy_f, deaths_f.
  rewrite Hr, Hact, Hhon. cbn [fst snd]. f_equal; apply filter_ext_in'; intros r Hin.
  - now rewrite (proj2 (between_spec 1 max_days _) (Ha r Hin)).
  - rewrite (proj2 (between_spec 1 max_days _) (Hm r Hin)).
    rewrite (proj2 (isin_spec _ _) (Hb r Hin)), (proj2 (isin_spec _ _) (Hres r Hin)).
    now rewrite !andb_true_r.
  - now rewrite (proj2 (between_spec 1 max_days _) (He r Hin)).
  - now rewrite (proj2 (between_spec 1 max_days _) (Hd r Hin)).
Qed.

(** X17.  At startup (line 65 calls generate_data() with its defaults 120
    and 365) the tables exist, and with the sidebar untouched (slider at
    (1, 365), every biome and resource of the Mining table selected, both
    boxes unchecked) the filter block returns, for the chosen mode, exactly
    the records of that mode from each generated table; provided the
    sampler's integer draws stay in range. *)
Theorem startup_selection :
  forall (numpy : RandomState) (s : rng),
    draw_int_in_range numpy ->
    exists (t : tables) (s' : rng),
      generate_data 120 365 s = (Returned t, s') /\
      forall m : string,
        global_filtering (default_params m 365 t) t = Returned (mode_subset m t).
Proof.
  intros numpy s Hnp.
  destruct (generate_data_rows numpy 120 365 s ltac:(lia) ltac:(lia))
    as (t & s' & E & A & M & Ec & D).
  exists t, s'. split; [exact E |]. intros m.
  apply (full_selection_mode_subset (default_params m 365 t) t 365).
  - unfold days_within. repeat split; eapply Forall_impl; try eassumption.
    + unfold activity_row_ok. intros r H. now apply H.
    + unfold mining_row_ok. intros r H. now apply H.
    + unfold economy_row_ok. intros r H. now apply H.
    + unfold deaths_row_ok. intros r H. now apply H.
  - reflexivity.
  - intros r Hin. apply default_options_full. now apply in_map.
  - intros r Hin. apply default_options_full. now apply in_map.
  - reflexivity.
  - reflexivity.
Qed.

Lemma startup_selection_witness :
  draw_int_in_range lcg /\
  exists (t : tables) (s' : @rng lcg),
    @generate_data lcg 120 365 (0 : @rng lcg) = (Returned t, s') /\
    forall m : string,
      global_filtering (default_params m 365 t) t = Returned (mode_subset m t).
Proof.
  split; [exact lcg_draw_int_in_range |].
  exact (startup_selection lcg 0 lcg_draw_int_in_range).
Defined.

Lemma modes_NoDup : NoDup modes.
Proof.
  unfold modes. repeat constructor; simpl; intuition discriminate.
Qed.

Lemma mode_partition {R : Type} (mode_of : R -> string) (rows : list R) :
  Forall (fun r => In (mode_of r) modes) rows ->
  list_sum (map (fun m => len (filter (fun r => (mode_of r =? m)%string) rows)) modes)
  = len rows.
Proof.
  intros H. apply (length_partition mode_of (fun m r => (mode_of r =? m)%string)).
  - intros k r. apply String.eqb_eq.
  - apply modes_NoDup.
  - now apply Forall_forall.
Qed.

(** X18.  The three modes of the selectbox partition the generated data:
    in each generated table the numbers of Survival, Creative and Hardcore
    records add up to the size of the table, so every record is shown
    under exactly one mode. *)
Theorem generated_modes_partition :
  forall (numpy : RandomState) (n_players max_days : Z) (s : rng),
    0 < n_players -> 0 < max_days ->
    exists (t : tables) (s' : rng),
      generate_data n_players max_days s = (Returned t, s') /\
      list_sum (map (fun m => len (activity (mode_subset m t))) modes) = len (activity t) /\
      list_sum (map (fun m => len (mining (mode_subset m t))) modes) = len (mining t) /\
      list_sum (map (fun m => len (economy (mode_subset m t))) modes) = len (economy t) /\
      list_sum (map (fun m => len (deaths (mode_subset m t))) modes) = len (deaths t).
Proof.
  intros numpy n d s Hn Hd.
  destruct (generate_data_rows numpy n d s Hn Hd) as (t & s' & E & A & M & Ec & D).
  exists t, s'. split; [exact E |]. unfold mode_subset. cbn [activity mining economy deaths].
  split; [| split; [| split]]; apply mode_partition; eapply Forall_impl; try eassumption.
  - unfold activity_row_ok. tauto.
  - unfold mining_row_ok. tauto.
  - unfold economy_row_ok. tauto.
  - unfold deaths_row_ok. tauto.
Qed.

Lemma generated_modes_partition_witness :
  0 < 2 /\ 0 < 3 /\
  exists (t : tables) (s' : @rng lcg),
    @generate_data lcg 2 3 (0 : @rng lcg) = (Returned t, s') /\
    list_sum (map (fun m => len (activity (mode_subset m t))) modes) = len (activity t) /\
    list_sum (map (fun m => len (mining (mode_subset m t))) modes) = len (mining t) /\
    list_sum (map (fun m => len (economy (mode_subset m t))) modes) = len (economy t) /\
    list_sum (map (fun m => len (deaths (mode_subset m t))) modes) = len (deaths t).
Proof.
  split; [lia |]. split; [lia |].
  apply (generated_modes_partition lcg 2 3 0); lia.
Defined.

(** ** Narrowing the selection never raises a count *)

Lemma activity_f_narrow (p q : params) (raw : list Activity.row) :
  narrows q p -> activity_f q (activity_f p raw) = activity_f q raw.
Proof.
  intros (Hm & Hlo & Hhi & _ & _ & Ha & _).
  rewrite !activity_f_filter. apply filter_implied. intros r E.
  apply activity_keep_spec in E. apply activity_keep_spec.
  destruct E as (E1 & E2 & E3). repeat split; try lia; [congruence |].
  intros Hp. apply E3. now apply Ha.
Qed.

Lemma nunique_incl (l l' : list string) : incl l l' -> (nunique l <= nunique l')%nat.
Proof.
  intros H. unfold nunique. apply NoDup_incl_length; [apply unique_NoDup |].
  intros x Hx. apply unique_sound in Hx. destruct Hx as (Hx & _).
  destruct (unique_In l' [] x (H x Hx)) as [[] | H']. exact H'.
Qed.

(** X19.  Narrowing the selection never raises a count KPI: when [q]
    selects no more than [p], the Active Players, Mining Events and Deaths
    Recorded values (lines 142, 150, 151) under [q] are at most those
    under [p]. *)
Theorem narrowing_lowers_counts :
  forall (p q : params) (raw : tables),
    narrows q p ->
    (nunique (map Activity.player (activity_f q (activity raw)))
     <= nunique (map Activity.player (activity_f p (activity raw))))%nat /\
    (len (mining_f q (mining raw)) <= len (mining_f p (mining raw)))%nat /\
    (len (deaths_f q (deaths raw)) <= len (deaths_f p (deaths raw)))%nat.
Proof.
  intros p q raw N. pose proof N as (Hm & Hlo & Hhi & Hb & Hr & Ha & Hh).
  assert (Hbt : forall x, between (fst (day_range q)) (snd (day_range q)) x = true ->
                          between (fst (day_range p)) (snd (day_range p)) x = true).
  { intros x E. apply between_spec in E. apply between_spec. lia. }
  split; [| split].
  - apply nunique_incl. rewrite <- (activity_f_narrow p q _ N).
    intros x Hx. apply in_map_iff in Hx. destruct Hx as (r & <- & Hr').
    apply in_map. rewrite activity_f_filter in Hr'. now apply filter_In in Hr'.
  - replace (mining_f q (mining raw)) with (mining_f q (mining_f p (mining raw))).
    + apply filter_length_le.
    + unfold mining_f. apply filter_implied. intros r E.
      rewrite !andb_true_iff in E. destruct E as (((E1 & E2) & E3) & E4).
      rewrite (Hbt _ E1), <- Hm, E2, (isin_incl _ _ _ Hb E3), (isin_incl _ _ _ Hr E4).
      reflexivity.
  - replace (deaths_f q (deaths raw)) with (deaths_f q (deaths_f p (deaths raw))).
    + apply filter_length_le.
    + unfold deaths_f. apply filter_implied. intros r E.
      rewrite andb_true_iff in E. destruct E as (E1 & E2).
      now rewrite (Hbt _ E1), <- Hm, E2.
Qed.

Lemma narrowing_lowers_counts_witness :
  narrows narrow_params sample_params /\
  (nunique (map Activity.player (activity_f narrow_params (activity sample_raw)))
   <= nunique (map Activity.player (activity_f sample_params (activity sample_raw))))%nat.
Proof.
  assert (N : narrows narrow_params sample_params).
  { unfold narrows, narrow_params, sample_params; simpl.
    repeat split; try lia; try reflexivity; intros x [<- | []]; simpl; tauto. }
  split; [exact N |].
  exact (proj1 (narrowing_lowers_counts sample_params narrow_params sample_raw N)).
Defined.
